(** * Prism demo: scene composition, control bindings and interaction

    A shallow embedding of [src/main.js].  The module-level mutable state of
    the script (scene graph nodes, the shared glass material, the [settings]
    record, the control panel and the drag variables) becomes one [State]
    record; every event handler and [animate] becomes a function
    [State -> State]; the browser is the list of events it delivers.

    Numbers are the program's own: IEEE 754 binary64, with every arithmetic
    operation rounded as JavaScript rounds it. *)

From Stdlib Require Import Floats String List Bool PeanoNat.
Import ListNotations.

(* Decimal literals denote the nearest binary64 value, as in JavaScript. *)
Set Warnings "-inexact-float".

Local Open Scope string_scope.
Local Open Scope float_scope.

Definition number : Type := float.

(** [Math.PI] *)
Definition Math_PI : number := 0x1.921fb54442d18p+1.

(** ** The parts of three.js the script touches *)

Module Vector3.
Record t : Type := mk { x : number; y : number; z : number }.
Definition set_y (v : number) (p : t) : t := mk (x p) v (z p).
End Vector3.

Module Euler.
Record t : Type := mk { x : number; y : number; z : number }.
Definition set_x (v : number) (r : t) : t := mk v (y r) (z r).
Definition set_y (v : number) (r : t) : t := mk (x r) v (z r).
Definition set_z (v : number) (r : t) : t := mk (x r) (y r) v.
End Euler.

(** [THREE.Object3D]: a fresh node sits at the origin, unrotated, visible. *)
Record Object3D : Type := mkObject3D
  { position : Vector3.t; rotation : Euler.t; visible : bool }.

Definition newObject3D : Object3D :=
  mkObject3D (Vector3.mk 0 0 0) (Euler.mk 0 0 0) true.

Definition set_position (p : Vector3.t) (o : Object3D) : Object3D :=
  mkObject3D p (rotation o) (visible o).
Definition set_rotation (r : Euler.t) (o : Object3D) : Object3D :=
  mkObject3D (position o) r (visible o).
Definition set_visible (b : bool) (o : Object3D) : Object3D :=
  mkObject3D (position o) (rotation o) b.

(** Materials are objects on the JavaScript heap.  The script allocates
    exactly three of them, once, so a reference is one of three handles and
    the heap is the three corresponding fields of [State]. *)
Inductive MaterialRef : Type :=
  | glassMaterialRef
  | inputBeamMaterialRef
  | particleMaterialRef.

Inductive Side : Type := FrontSide | BackSide | DoubleSide.

Record MeshPhysicalMaterial : Type := mkMeshPhysicalMaterial
  { transmission : number;
    roughness : number;
    thickness : number;
    ior : number;
    dispersion : number;
    metalness : number;
    clearcoat : number;
    clearcoatRoughness : number;
    envMapIntensity : number;
    side : Side }.

(** [inputBeamMaterial.uniforms.opacity.value] *)
Record ShaderMaterial : Type := mkShaderMaterial
  { uniforms_opacity : number }.

Record PointsMaterial : Type := mkPointsMaterial
  { points_size : number; points_opacity : number }.

Inductive Material : Type :=
  | Physical (m : MeshPhysicalMaterial)
  | Shader (m : ShaderMaterial)
  | Points (m : PointsMaterial).

(** [THREE.Mesh] (and [THREE.Points]): a node plus a reference to a material. *)
Record Mesh : Type := mkMesh { node : Object3D; material : MaterialRef }.

Definition set_node (o : Object3D) (m : Mesh) : Mesh := mkMesh o (material m).

(** The five parameters of the glass material that the panel exposes. *)
Inductive GlassParam : Type :=
  | Transmission | Ior | Dispersion | Thickness | Roughness.

Definition glassParam (p : GlassParam) (m : MeshPhysicalMaterial) : number :=
  match p with
  | Transmission => transmission m
  | Ior => ior m
  | Dispersion => dispersion m
  | Thickness => thickness m
  | Roughness => roughness m
  end.

Definition set_glassParam (p : GlassParam) (v : number)
    (m : MeshPhysicalMaterial) : MeshPhysicalMaterial :=
  mkMeshPhysicalMaterial
    (match p with Transmission => v | _ => transmission m end)
    (match p with Roughness => v | _ => roughness m end)
    (match p with Thickness => v | _ => thickness m end)
    (match p with Ior => v | _ => ior m end)
    (match p with Dispersion => v | _ => dispersion m end)
    (metalness m) (clearcoat m) (clearcoatRoughness m) (envMapIntensity m)
    (side m).

(** ** The [settings] object *)

Module Settings.
Record t : Type := mk
  { shape : string;
    prismRotateX : number;
    prismRotateY : number;
    prismRotateZ : number;
    autoRotate : bool;
    autoRotateSpeed : number;
    biPyramidGap : number;
    showInputBeam : bool;
    inputBeamOpacity : number;
    lightIntensity : number;
    fogDensity : number;
    particlesVisible : bool }.

Definition set_shape (v : string) (s : t) : t :=
  mk v (prismRotateX s) (prismRotateY s) (prismRotateZ s) (autoRotate s)
     (autoRotateSpeed s) (biPyramidGap s) (showInputBeam s)
     (inputBeamOpacity s) (lightIntensity s) (fogDensity s)
     (particlesVisible s).
Definition set_prismRotateX (v : number) (s : t) : t :=
  mk (shape s) v (prismRotateY s) (prismRotateZ s) (autoRotate s)
     (autoRotateSpeed s) (biPyramidGap s) (showInputBeam s)
     (inputBeamOpacity s) (lightIntensity s) (fogDensity s)
     (particlesVisible s).
Definition set_prismRotateY (v : number) (s : t) : t :=
  mk (shape s) (prismRotateX s) v (prismRotateZ s) (autoRotate s)
     (autoRotateSpeed s) (biPyramidGap s) (showInputBeam s)
     (inputBeamOpacity s) (lightIntensity s) (fogDensity s)
     (particlesVisible s).
Definition set_prismRotateZ (v : number) (s : t) : t :=
  mk (shape s) (prismRotateX s) (prismRotateY s) v (autoRotate s)
     (autoRotateSpeed s) (biPyramidGap s) (showInputBeam s)
     (inputBeamOpacity s) (lightIntensity s) (fogDensity s)
     (particlesVisible s).
Definition set_autoRotate (v : bool) (s : t) : t :=
  mk (shape s) (prismRotateX s) (prismRotateY s) (prismRotateZ s) v
     (autoRotateSpeed s) (biPyramidGap s) (showInputBeam s)
     (inputBeamOpacity s) (lightIntensity s) (fogDensity s)
     (particlesVisible s).
Definition set_autoRotateSpeed (v : number) (s : t) : t :=
  mk (shape s) (prismRotateX s) (prismRotateY s) (prismRotateZ s)
     (autoRotate s) v (biPyramidGap s) (showInputBeam s)
     (inputBeamOpacity s) (lightIntensity s) (fogDensity s)
     (particlesVisible s).
Definition set_biPyramidGap (v : number) (s : t) : t :=
  mk (shape s) (prismRotateX s) (prismRotateY s) (prismRotateZ s)
     (autoRotate s) (autoRotateSpeed s) v (showInputBeam s)
     (inputBeamOpacity s) (lightIntensity s) (fogDensity s)
     (particlesVisible s).
Definition set_showInputBeam (v : bool) (s : t) : t :=
  mk (shape s) (prismRotateX s) (prismRotateY s) (prismRotateZ s)
     (autoRotate s) (autoRotateSpeed s) (biPyramidGap s) v
     (inputBeamOpacity s) (lightIntensity s) (fogDensity s)
     (particlesVisible s).
Definition set_inputBeamOpacity (v : number) (s : t) : t :=
  mk (shape s) (prismRotateX s) (prismRotateY s) (prismRotateZ s)
     (autoRotate s) (autoRotateSpeed s) (biPyramidGap s) (showInputBeam s)
     v (lightIntensity s) (fogDensity s) (particlesVisible s).
Definition set_lightIntensity (v : number) (s : t) : t :=
  mk (shape s) (prismRotateX s) (prismRotateY s) (prismRotateZ s)
     (autoRotate s) (autoRotateSpeed s) (biPyramidGap s) (showInputBeam s)
     (inputBeamOpacity s) v (fogDensity s) (particlesVisible s).
Definition set_fogDensity (v : number) (s : t) : t :=
  mk (shape s) (prismRotateX s) (prismRotateY s) (prismRotateZ s)
     (autoRotate s) (autoRotateSpeed s) (biPyramidGap s) (showInputBeam s)
     (inputBeamOpacity s) (lightIntensity s) v (particlesVisible s).
Definition set_particlesVisible (v : bool) (s : t) : t :=
  mk (shape s) (prismRotateX s) (prismRotateY s) (prismRotateZ s)
     (autoRotate s) (autoRotateSpeed s) (biPyramidGap s) (showInputBeam s)
     (inputBeamOpacity s) (lightIntensity s) (fogDensity s) v.
End Settings.

(** ** The control panel

    One controller per [add] call of the script, in creation order.  What a
    controller shows is the value it read from its bound object property the
    last time its display was refreshed. *)

Inductive Controller : Type :=
  | shapeCtl
  | biPyramidGapCtl
  | prismRotateXCtl
  | prismRotateYCtl
  | prismRotateZCtl
  | autoRotateCtl
  | autoRotateSpeedCtl
  | glassCtl (p : GlassParam)
  | showInputBeamCtl
  | inputBeamOpacityCtl
  | lightIntensityCtl
  | fogDensityCtl
  | particlesVisibleCtl.

Inductive Value : Type :=
  | VString (s : string)
  | VNumber (n : number)
  | VBoolean (b : bool).

Definition GlassParam_eqb (p q : GlassParam) : bool :=
  match p, q with
  | Transmission, Transmission | Ior, Ior | Dispersion, Dispersion
  | Thickness, Thickness | Roughness, Roughness => true
  | _, _ => false
  end.

Definition Controller_eqb (c d : Controller) : bool :=
  match c, d with
  | shapeCtl, shapeCtl | biPyramidGapCtl, biPyramidGapCtl
  | prismRotateXCtl, prismRotateXCtl | prismRotateYCtl, prismRotateYCtl
  | prismRotateZCtl, prismRotateZCtl | autoRotateCtl, autoRotateCtl
  | autoRotateSpeedCtl, autoRotateSpeedCtl
  | showInputBeamCtl, showInputBeamCtl
  | inputBeamOpacityCtl, inputBeamOpacityCtl
  | lightIntensityCtl, lightIntensityCtl | fogDensityCtl, fogDensityCtl
  | particlesVisibleCtl, particlesVisibleCtl => true
  | glassCtl p, glassCtl q => GlassParam_eqb p q
  | _, _ => false
  end.

(** [gui.controllersRecursive()]: the folders in creation order (Shape,
    Rotation, Glass Properties, Lighting, Atmosphere), each with its
    controllers in creation order. *)
Definition controllersRecursive : list Controller :=
  [ shapeCtl; biPyramidGapCtl;
    prismRotateXCtl; prismRotateYCtl; prismRotateZCtl;
    autoRotateCtl; autoRotateSpeedCtl;
    glassCtl Transmission; glassCtl Ior; glassCtl Dispersion;
    glassCtl Thickness; glassCtl Roughness;
    showInputBeamCtl; inputBeamOpacityCtl; lightIntensityCtl;
    fogDensityCtl; particlesVisibleCtl ].

(** The option list of the shape drop-down. *)
Definition shapeOptions : list string := [ "Single Pyramid"; "Bi-Pyramid" ].

(** ** Program state *)

Module Point.
Record t : Type := mk { x : number; y : number }.
End Point.

Record State : Type := mkState
  { glassMaterial : MeshPhysicalMaterial;
    inputBeamMaterial : ShaderMaterial;
    particleMaterial : PointsMaterial;
    prismGroup : Object3D;
    singlePyramidGroup : Object3D;
    biPyramidGroup : Object3D;
    singlePyramid : Mesh;
    upperPyramid : Mesh;
    lowerPyramid : Mesh;
    biPyramidGap : number;
    spotLight_intensity : number;
    inputBeam : Mesh;
    fog_density : number;
    particles : Mesh;
    camera_aspect : number;
    renderer_size : number * number;
    settings : Settings.t;
    gui : Controller -> Value;
    isDragging : bool;
    previousMousePosition : Point.t }.

(** Field updates: an assignment to one module-level variable or to one
    property of a scene object leaves every other field as it was. *)

Definition set_glassMaterial (v : MeshPhysicalMaterial) (st : State) : State :=
  mkState
    v (inputBeamMaterial st) (particleMaterial st) (prismGroup st)
    (singlePyramidGroup st) (biPyramidGroup st) (singlePyramid st)
    (upperPyramid st) (lowerPyramid st) (biPyramidGap st)
    (spotLight_intensity st) (inputBeam st) (fog_density st) (particles st)
    (camera_aspect st) (renderer_size st) (settings st) (gui st)
    (isDragging st) (previousMousePosition st).
Definition set_inputBeamMaterial (v : ShaderMaterial) (st : State) : State :=
  mkState
    (glassMaterial st) v (particleMaterial st) (prismGroup st)
    (singlePyramidGroup st) (biPyramidGroup st) (singlePyramid st)
    (upperPyramid st) (lowerPyramid st) (biPyramidGap st)
    (spotLight_intensity st) (inputBeam st) (fog_density st) (particles st)
    (camera_aspect st) (renderer_size st) (settings st) (gui st)
    (isDragging st) (previousMousePosition st).
Definition set_prismGroup (v : Object3D) (st : State) : State :=
  mkState
    (glassMaterial st) (inputBeamMaterial st) (particleMaterial st) v
    (singlePyramidGroup st) (biPyramidGroup st) (singlePyramid st)
    (upperPyramid st) (lowerPyramid st) (biPyramidGap st)
    (spotLight_intensity st) (inputBeam st) (fog_density st) (particles st)
    (camera_aspect st) (renderer_size st) (settings st) (gui st)
    (isDragging st) (previousMousePosition st).
Definition set_singlePyramidGroup (v : Object3D) (st : State) : State :=
  mkState
    (glassMaterial st) (inputBeamMaterial st) (particleMaterial st)
    (prismGroup st) v (biPyramidGroup st) (singlePyramid st)
    (upperPyramid st) (lowerPyramid st) (biPyramidGap st)
    (spotLight_intensity st) (inputBeam st) (fog_density st) (particles st)
    (camera_aspect st) (renderer_size st) (settings st) (gui st)
    (isDragging st) (previousMousePosition st).
Definition set_biPyramidGroup (v : Object3D) (st : State) : State :=
  mkState
    (glassMaterial st) (inputBeamMaterial st) (particleMaterial st)
    (prismGroup st) (singlePyramidGroup st) v (singlePyramid st)
    (upperPyramid st) (lowerPyramid st) (biPyramidGap st)
    (spotLight_intensity st) (inputBeam st) (fog_density st) (particles st)
    (camera_aspect st) (renderer_size st) (settings st) (gui st)
    (isDragging st) (previousMousePosition st).
Definition set_upperPyramid (v : Mesh) (st : State) : State :=
  mkState
    (glassMaterial st) (inputBeamMaterial st) (particleMaterial st)
    (prismGroup st) (singlePyramidGroup st) (biPyramidGroup st)
    (singlePyramid st) v (lowerPyramid st) (biPyramidGap st)
    (spotLight_intensity st) (inputBeam st) (fog_density st) (particles st)
    (camera_aspect st) (renderer_size st) (settings st) (gui st)
    (isDragging st) (previousMousePosition st).
Definition set_lowerPyramid (v : Mesh) (st : State) : State :=
  mkState
    (glassMaterial st) (inputBeamMaterial st) (particleMaterial st)
    (prismGroup st) (singlePyramidGroup st) (biPyramidGroup st)
    (singlePyramid st) (upperPyramid st) v (biPyramidGap st)
    (spotLight_intensity st) (inputBeam st) (fog_density st) (particles st)
    (camera_aspect st) (renderer_size st) (settings st) (gui st)
    (isDragging st) (previousMousePosition st).
Definition set_biPyramidGap (v : number) (st : State) : State :=
  mkState
    (glassMaterial st) (inputBeamMaterial st) (particleMaterial st)
    (prismGroup st) (singlePyramidGroup st) (biPyramidGroup st)
    (singlePyramid st) (upperPyramid st) (lowerPyramid st) v
    (spotLight_intensity st) (inputBeam st) (fog_density st) (particles st)
    (camera_aspect st) (renderer_size st) (settings st) (gui st)
    (isDragging st) (previousMousePosition st).
Definition set_spotLight_intensity (v : number) (st : State) : State :=
  mkState
    (glassMaterial st) (inputBeamMaterial st) (particleMaterial st)
    (prismGroup st) (singlePyramidGroup st) (biPyramidGroup st)
    (singlePyramid st) (upperPyramid st) (lowerPyramid st) (biPyramidGap st)
    v (inputBeam st) (fog_density st) (particles st) (camera_aspect st)
    (renderer_size st) (settings st) (gui st) (isDragging st)
    (previousMousePosition st).
Definition set_inputBeam (v : Mesh) (st : State) : State :=
  mkState
    (glassMaterial st) (inputBeamMaterial st) (particleMaterial st)
    (prismGroup st) (singlePyramidGroup st) (biPyramidGroup st)
    (singlePyramid st) (upperPyramid st) (lowerPyramid st) (biPyramidGap st)
    (spotLight_intensity st) v (fog_density st) (particles st)
    (camera_aspect st) (renderer_size st) (settings st) (gui st)
    (isDragging st) (previousMousePosition st).
Definition set_fog_density (v : number) (st : State) : State :=
  mkState
    (glassMaterial st) (inputBeamMaterial st) (particleMaterial st)
    (prismGroup st) (singlePyramidGroup st) (biPyramidGroup st)
    (singlePyramid st) (upperPyramid st) (lowerPyramid st) (biPyramidGap st)
    (spotLight_intensity st) (inputBeam st) v (particles st)
    (camera_aspect st) (renderer_size st) (settings st) (gui st)
    (isDragging st) (previousMousePosition st).
Definition set_particles (v : Mesh) (st : State) : State :=
  mkState
    (glassMaterial st) (inputBeamMaterial st) (particleMaterial st)
    (prismGroup st) (singlePyramidGroup st) (biPyramidGroup st)
    (singlePyramid st) (upperPyramid st) (lowerPyramid st) (biPyramidGap st)
    (spotLight_intensity st) (inputBeam st) (fog_density st) v
    (camera_aspect st) (renderer_size st) (settings st) (gui st)
    (isDragging st) (previousMousePosition st).
Definition set_camera_aspect (v : number) (st : State) : State :=
  mkState
    (glassMaterial st) (inputBeamMaterial st) (particleMaterial st)
    (prismGroup st) (singlePyramidGroup st) (biPyramidGroup st)
    (singlePyramid st) (upperPyramid st) (lowerPyramid st) (biPyramidGap st)
    (spotLight_intensity st) (inputBeam st) (fog_density st) (particles st)
    v (renderer_size st) (settings st) (gui st) (isDragging st)
    (previousMousePosition st).
Definition set_renderer_size (v : number * number) (st : State) : State :=
  mkState
    (glassMaterial st) (inputBeamMaterial st) (particleMaterial st)
    (prismGroup st) (singlePyramidGroup st) (biPyramidGroup st)
    (singlePyramid st) (upperPyramid st) (lowerPyramid st) (biPyramidGap st)
    (spotLight_intensity st) (inputBeam st) (fog_density st) (particles st)
    (camera_aspect st) v (settings st) (gui st) (isDragging st)
    (previousMousePosition st).
Definition set_settings (v : Settings.t) (st : State) : State :=
  mkState
    (glassMaterial st) (inputBeamMaterial st) (particleMaterial st)
    (prismGroup st) (singlePyramidGroup st) (biPyramidGroup st)
    (singlePyramid st) (upperPyramid st) (lowerPyramid st) (biPyramidGap st)
    (spotLight_intensity st) (inputBeam st) (fog_density st) (particles st)
    (camera_aspect st) (renderer_size st) v (gui st) (isDragging st)
    (previousMousePosition st).
Definition set_gui (v : Controller -> Value) (st : State) : State :=
  mkState
    (glassMaterial st) (inputBeamMaterial st) (particleMaterial st)
    (prismGroup st) (singlePyramidGroup st) (biPyramidGroup st)
    (singlePyramid st) (upperPyramid st) (lowerPyramid st) (biPyramidGap st)
    (spotLight_intensity st) (inputBeam st) (fog_density st) (particles st)
    (camera_aspect st) (renderer_size st) (settings st) v (isDragging st)
    (previousMousePosition st).
Definition set_isDragging (v : bool) (st : State) : State :=
  mkState
    (glassMaterial st) (inputBeamMaterial st) (particleMaterial st)
    (prismGroup st) (singlePyramidGroup st) (biPyramidGroup st)
    (singlePyramid st) (upperPyramid st) (lowerPyramid st) (biPyramidGap st)
    (spotLight_intensity st) (inputBeam st) (fog_density st) (particles st)
    (camera_aspect st) (renderer_size st) (settings st) (gui st) v
    (previousMousePosition st).
Definition set_previousMousePosition (v : Point.t) (st : State) : State :=
  mkState
    (glassMaterial st) (inputBeamMaterial st) (particleMaterial st)
    (prismGroup st) (singlePyramidGroup st) (biPyramidGroup st)
    (singlePyramid st) (upperPyramid st) (lowerPyramid st) (biPyramidGap st)
    (spotLight_intensity st) (inputBeam st) (fog_density st) (particles st)
    (camera_aspect st) (renderer_size st) (settings st) (gui st)
    (isDragging st) v.

(** Dereferencing a material handle in the current heap. *)
Definition materialOf (st : State) (r : MaterialRef) : Material :=
  match r with
  | glassMaterialRef => Physical (glassMaterial st)
  | inputBeamMaterialRef => Shader (inputBeamMaterial st)
  | particleMaterialRef => Points (particleMaterial st)
  end.

(** The material a mesh is drawn with on the next render. *)
Definition renderedMaterial (st : State) (m : Mesh) : Material :=
  materialOf st (material m).

(** ** Construction-time constants *)

Definition singlePyramidRadius : number := 1.2.
Definition singlePyramidHeight : number := 2.0.
Definition biPyramidRadius : number := 1.2.
Definition biPyramidHeight : number := 1.5 * 1.3.
Definition initialBiPyramidGap : number := 0.15.
Definition inputBeamLength : number := 14.

(** ** Scene operations *)

(** [obj.position.y = v], [obj.rotation.x = v] and so on. *)
Definition set_position_y (v : number) (o : Object3D) : Object3D :=
  set_position (Vector3.set_y v (position o)) o.
Definition set_rotation_x (v : number) (o : Object3D) : Object3D :=
  set_rotation (Euler.set_x v (rotation o)) o.
Definition set_rotation_y (v : number) (o : Object3D) : Object3D :=
  set_rotation (Euler.set_y v (rotation o)) o.
Definition set_rotation_z (v : number) (o : Object3D) : Object3D :=
  set_rotation (Euler.set_z v (rotation o)) o.

Definition updateBiPyramidGap (gap : number) (st : State) : State :=
  let st1 := set_biPyramidGap gap st in
  let st2 :=
    set_upperPyramid
      (set_node (set_position_y (biPyramidHeight / 2 + gap / 2)
                   (node (upperPyramid st1))) (upperPyramid st1)) st1 in
  set_lowerPyramid
    (set_node (set_position_y (- (biPyramidHeight / 2 + gap / 2))
                 (node (lowerPyramid st2))) (lowerPyramid st2)) st2.

Definition setActiveShape (shapeName : string) (st : State) : State :=
  let st1 :=
    set_singlePyramidGroup
      (set_visible (String.eqb shapeName "Single Pyramid")
         (singlePyramidGroup st)) st in
  set_biPyramidGroup
    (set_visible (String.eqb shapeName "Bi-Pyramid") (biPyramidGroup st1))
    st1.

(** ** The control panel at work *)

(** What a controller reads from the object property it is bound to. *)
Definition getValue (c : Controller) (st : State) : Value :=
  match c with
  | shapeCtl => VString (Settings.shape (settings st))
  | biPyramidGapCtl => VNumber (Settings.biPyramidGap (settings st))
  | prismRotateXCtl => VNumber (Settings.prismRotateX (settings st))
  | prismRotateYCtl => VNumber (Settings.prismRotateY (settings st))
  | prismRotateZCtl => VNumber (Settings.prismRotateZ (settings st))
  | autoRotateCtl => VBoolean (Settings.autoRotate (settings st))
  | autoRotateSpeedCtl => VNumber (Settings.autoRotateSpeed (settings st))
  | glassCtl p => VNumber (glassParam p (glassMaterial st))
  | showInputBeamCtl => VBoolean (Settings.showInputBeam (settings st))
  | inputBeamOpacityCtl => VNumber (Settings.inputBeamOpacity (settings st))
  | lightIntensityCtl => VNumber (Settings.lightIntensity (settings st))
  | fogDensityCtl => VNumber (Settings.fogDensity (settings st))
  | particlesVisibleCtl => VBoolean (Settings.particlesVisible (settings st))
  end.

(** [c.updateDisplay()] *)
Definition updateDisplay (c : Controller) (st : State) : State :=
  let v := getValue c st in
  set_gui (fun d => if Controller_eqb c d then v else gui st d) st.

(** [gui.controllersRecursive().forEach(c => c.updateDisplay())] *)
Definition updateAllDisplays (st : State) : State :=
  fold_left (fun s c => updateDisplay c s) controllersRecursive st.

(** A change made by the user on the panel: the controller and its new
    value. *)
Inductive GuiInput : Type :=
  | SetShape (v : string)
  | SetBiPyramidGap (v : number)
  | SetPrismRotateX (v : number)
  | SetPrismRotateY (v : number)
  | SetPrismRotateZ (v : number)
  | SetAutoRotate (v : bool)
  | SetAutoRotateSpeed (v : number)
  | SetGlass (p : GlassParam) (v : number)
  | SetShowInputBeam (v : bool)
  | SetInputBeamOpacity (v : number)
  | SetLightIntensity (v : number)
  | SetFogDensity (v : number)
  | SetParticlesVisible (v : bool).

Definition controllerOf (i : GuiInput) : Controller :=
  match i with
  | SetShape _ => shapeCtl
  | SetBiPyramidGap _ => biPyramidGapCtl
  | SetPrismRotateX _ => prismRotateXCtl
  | SetPrismRotateY _ => prismRotateYCtl
  | SetPrismRotateZ _ => prismRotateZCtl
  | SetAutoRotate _ => autoRotateCtl
  | SetAutoRotateSpeed _ => autoRotateSpeedCtl
  | SetGlass p _ => glassCtl p
  | SetShowInputBeam _ => showInputBeamCtl
  | SetInputBeamOpacity _ => inputBeamOpacityCtl
  | SetLightIntensity _ => lightIntensityCtl
  | SetFogDensity _ => fogDensityCtl
  | SetParticlesVisible _ => particlesVisibleCtl
  end.

Definition update_settings (f : Settings.t -> Settings.t) (st : State)
    : State :=
  set_settings (f (settings st)) st.

(** [object[property] = value] for the object and property the controller
    was created with ([settings] or [glassMaterial]). *)
Definition writeBound (i : GuiInput) (st : State) : State :=
  match i with
  | SetShape v => update_settings (Settings.set_shape v) st
  | SetBiPyramidGap v => update_settings (Settings.set_biPyramidGap v) st
  | SetPrismRotateX v => update_settings (Settings.set_prismRotateX v) st
  | SetPrismRotateY v => update_settings (Settings.set_prismRotateY v) st
  | SetPrismRotateZ v => update_settings (Settings.set_prismRotateZ v) st
  | SetAutoRotate v => update_settings (Settings.set_autoRotate v) st
  | SetAutoRotateSpeed v =>
      update_settings (Settings.set_autoRotateSpeed v) st
  | SetGlass p v => set_glassMaterial (set_glassParam p v (glassMaterial st)) st
  | SetShowInputBeam v => update_settings (Settings.set_showInputBeam v) st
  | SetInputBeamOpacity v =>
      update_settings (Settings.set_inputBeamOpacity v) st
  | SetLightIntensity v => update_settings (Settings.set_lightIntensity v) st
  | SetFogDensity v => update_settings (Settings.set_fogDensity v) st
  | SetParticlesVisible v =>
      update_settings (Settings.set_particlesVisible v) st
  end.

(** The [onChange] callback registered on the controller, if any. *)
Definition onChange (i : GuiInput) (st : State) : State :=
  match i with
  | SetShape v => setActiveShape v st
  | SetBiPyramidGap v => updateBiPyramidGap v st
  | SetPrismRotateX v => set_prismGroup (set_rotation_x v (prismGroup st)) st
  | SetPrismRotateY v => set_prismGroup (set_rotation_y v (prismGroup st)) st
  | SetPrismRotateZ v => set_prismGroup (set_rotation_z v (prismGroup st)) st
  | SetAutoRotate _ => st
  | SetAutoRotateSpeed _ => st
  | SetGlass _ _ => st
  | SetShowInputBeam v =>
      set_inputBeam (set_node (set_visible v (node (inputBeam st)))
                       (inputBeam st)) st
  | SetInputBeamOpacity v => set_inputBeamMaterial (mkShaderMaterial v) st
  | SetLightIntensity v => set_spotLight_intensity v st
  | SetFogDensity v => set_fog_density v st
  | SetParticlesVisible v =>
      set_particles (set_node (set_visible v (node (particles st)))
                       (particles st)) st
  end.

(** The panel's reaction to a user change: store the value, run the
    callback, redraw that one controller. *)
Definition setValue (i : GuiInput) (st : State) : State :=
  updateDisplay (controllerOf i) (onChange i (writeBound i st)).

(** ** Pointer handlers, resize handler and the animation loop *)

Definition onMouseDown (clientX clientY : number) (st : State) : State :=
  set_previousMousePosition (Point.mk clientX clientY)
    (set_isDragging true st).

Definition onMouseMove (clientX clientY : number) (st : State) : State :=
  if negb (isDragging st) then st
  else
    let deltaX := clientX - Point.x (previousMousePosition st) in
    let deltaY := clientY - Point.y (previousMousePosition st) in
    let st1 :=
      set_prismGroup
        (set_rotation_y (Euler.y (rotation (prismGroup st)) + deltaX * 0.005)
           (prismGroup st)) st in
    let st2 :=
      set_prismGroup
        (set_rotation_x (Euler.x (rotation (prismGroup st1)) + deltaY * 0.005)
           (prismGroup st1)) st1 in
    let st3 :=
      update_settings
        (Settings.set_prismRotateY (Euler.y (rotation (prismGroup st2))))
        st2 in
    let st4 :=
      update_settings
        (Settings.set_prismRotateX (Euler.x (rotation (prismGroup st3))))
        st3 in
    let st5 := updateAllDisplays st4 in
    set_previousMousePosition (Point.mk clientX clientY) st5.

Definition onMouseUp (st : State) : State := set_isDragging false st.

Definition onMouseLeave (st : State) : State := set_isDragging false st.

Definition onResize (innerWidth innerHeight : number) (st : State) : State :=
  set_renderer_size (innerWidth, innerHeight)
    (set_camera_aspect (innerWidth / innerHeight) st).

(** One run of [animate]; the [requestAnimationFrame] call at its head is
    the next [AnimationFrame] event. *)
Definition animate (st : State) : State :=
  let st2 :=
    if Settings.autoRotate (settings st) && negb (isDragging st) then
      let st1 :=
        set_prismGroup
          (set_rotation_y
             (Euler.y (rotation (prismGroup st))
              + Settings.autoRotateSpeed (settings st) * 0.01)
             (prismGroup st)) st in
      update_settings
        (Settings.set_prismRotateY (Euler.y (rotation (prismGroup st1))))
        st1
    else st in
  set_particles
    (set_node
       (set_rotation_y
          (Euler.y (rotation (node (particles st2))) + 0.0001)
          (node (particles st2))) (particles st2)) st2.

Inductive Event : Type :=
  | Gui (i : GuiInput)
  | MouseDown (clientX clientY : number)
  | MouseMove (clientX clientY : number)
  | MouseUp
  | MouseLeave
  | Resize (innerWidth innerHeight : number)
  | AnimationFrame.

Definition step (st : State) (e : Event) : State :=
  match e with
  | Gui i => setValue i st
  | MouseDown x y => onMouseDown x y st
  | MouseMove x y => onMouseMove x y st
  | MouseUp => onMouseUp st
  | MouseLeave => onMouseLeave st
  | Resize w h => onResize w h st
  | AnimationFrame => animate st
  end.

Definition run (st : State) (es : list Event) : State := fold_left step es st.

(** ** The state the script builds at load time

    [innerWidth] and [innerHeight] are the window's dimensions at that
    moment.  [init] is the state just before the call [animate()] on the
    last line of the script, which is the first [AnimationFrame] event. *)

Definition initialSettings : Settings.t :=
  Settings.mk "Bi-Pyramid" (Math_PI / 6) (Math_PI / 4) 0 true 0.3
    initialBiPyramidGap false 0.25 200 0.02 true.

Definition initialGlassMaterial : MeshPhysicalMaterial :=
  mkMeshPhysicalMaterial 1.0 0.0 5.0 2.0 5.0 0.0 1.0 0.0 1.0 DoubleSide.

Definition constructed (innerWidth innerHeight : number) : State :=
  mkState
    initialGlassMaterial
    (mkShaderMaterial 0.25)
    (mkPointsMaterial 0.015 0.2)
    (* prismGroup, with the default rotation applied *)
    (set_rotation_y (Math_PI / 4) (set_rotation_x (Math_PI / 6) newObject3D))
    (* singlePyramidGroup, biPyramidGroup *)
    (set_visible false newObject3D)
    (set_visible true newObject3D)
    (* singlePyramid, upperPyramid, lowerPyramid *)
    (mkMesh newObject3D glassMaterialRef)
    (mkMesh
       (set_position_y (biPyramidHeight / 2 + initialBiPyramidGap / 2)
          newObject3D) glassMaterialRef)
    (mkMesh
       (set_position_y (- (biPyramidHeight / 2 + initialBiPyramidGap / 2))
          (set_rotation_x Math_PI newObject3D)) glassMaterialRef)
    initialBiPyramidGap
    (* spotLight.intensity *)
    200
    (* inputBeam *)
    (mkMesh
       (mkObject3D (Vector3.mk (-15 + inputBeamLength / 2) 0 0)
          (Euler.mk 0 0 (- Math_PI / 2)) false) inputBeamMaterialRef)
    (* scene.fog.density *)
    0.02
    (* particles *)
    (mkMesh newObject3D particleMaterialRef)
    (innerWidth / innerHeight)
    (innerWidth, innerHeight)
    initialSettings
    (* every controller draws itself when it is created; rebuilt below *)
    (fun _ => VBoolean false)
    false
    (Point.mk 0 0).

Definition init (innerWidth innerHeight : number) : State :=
  updateAllDisplays (constructed innerWidth innerHeight).

(** States the running program can be in. *)
Inductive reachable : State -> Prop :=
  | reachable_init : forall w h, reachable (init w h)
  | reachable_step : forall st e, reachable st -> reachable (step st e).

(** ** Predicates used in the statements *)

(** The stored angles agree with the group's rotation. *)
Definition orientationSynced (st : State) : Prop :=
  Settings.prismRotateX (settings st) = Euler.x (rotation (prismGroup st))
  /\ Settings.prismRotateY (settings st) = Euler.y (rotation (prismGroup st))
  /\ Settings.prismRotateZ (settings st) = Euler.z (rotation (prismGroup st)).

(** The three writers of the orientation: the three rotation sliders, a
    pointer move, an animation tick. *)
Definition isOrientationWriter (e : Event) : bool :=
  match e with
  | Gui (SetPrismRotateX _) | Gui (SetPrismRotateY _)
  | Gui (SetPrismRotateZ _) => true
  | MouseMove _ _ => true
  | AnimationFrame => true
  | _ => false
  end.

(** A controller is up to date when it shows what its property holds now. *)
Definition upToDate (st : State) (c : Controller) : Prop :=
  gui st c = getValue c st.

Definition isMouseDown (e : Event) : bool :=
  match e with MouseDown _ _ => true | _ => false end.

(** Put the two visibility flags of the shape groups to given values and
    leave everything else alone. *)
Definition withShapeVisibility (a b : bool) (st : State) : State :=
  set_biPyramidGroup (set_visible b (biPyramidGroup st))
    (set_singlePyramidGroup (set_visible a (singlePyramidGroup st)) st).

(** The three solids all point to the glass material. *)
Definition solidsShareGlass (st : State) : Prop :=
  material (singlePyramid st) = glassMaterialRef
  /\ material (upperPyramid st) = glassMaterialRef
  /\ material (lowerPyramid st) = glassMaterialRef.

(** The prism group's three angles. *)
Definition rotationX (st : State) : number := Euler.x (rotation (prismGroup st)).
Definition rotationY (st : State) : number := Euler.y (rotation (prismGroup st)).
Definition rotationZ (st : State) : number := Euler.z (rotation (prismGroup st)).

(** The vertical offsets of the two halves of the bi-pyramid. *)
Definition upperOffset (st : State) : number :=
  Vector3.y (position (node (upperPyramid st))).
Definition lowerOffset (st : State) : number :=
  Vector3.y (position (node (lowerPyramid st))).

(** The panel redraw is a loop over seventeen controllers; proofs go through
    its lemmas, never through its unfolding. *)
Arguments updateAllDisplays : simpl never.

(** Case analysis on the event, down to the branch a handler takes. *)
Ltac event_cases st e :=
  destruct e as [ [ | | | | | | | ? ? | | | | | ] | | | | | | ];
  unfold step, onMouseMove, animate;
  try destruct (isDragging st);
  try destruct (Settings.autoRotate (settings st)).

(** Two distinct binary64 constants are told apart by comparing them. *)
Ltac float_neq rhs :=
  let H := fresh "H" in
  intro H;
  apply (f_equal (fun v => PrimFloat.eqb v rhs)) in H;
  vm_compute in H;
  discriminate H.


(** ** Further predicates: what holds throughout a run *)

(** Everything a panel control hands to the scene through its callback is,
    in the scene, what the [settings] record says. *)
Definition sceneMirrorsSettings (st : State) : Prop :=
  biPyramidGap st = Settings.biPyramidGap (settings st)
  /\ visible (node (inputBeam st)) = Settings.showInputBeam (settings st)
  /\ uniforms_opacity (inputBeamMaterial st)
     = Settings.inputBeamOpacity (settings st)
  /\ spotLight_intensity st = Settings.lightIntensity (settings st)
  /\ fog_density st = Settings.fogDensity (settings st)
  /\ visible (node (particles st)) = Settings.particlesVisible (settings st)
  /\ visible (singlePyramidGroup st)
     = String.eqb (Settings.shape (settings st)) "Single Pyramid"
  /\ visible (biPyramidGroup st)
     = String.eqb (Settings.shape (settings st)) "Bi-Pyramid".

(** The two halves sit where the current gap puts them, mirror images of
    each other, the lower one flipped. *)
Definition biPyramidPlaced (st : State) : Prop :=
  upperOffset st = biPyramidHeight / 2 + biPyramidGap st / 2
  /\ lowerOffset st = - upperOffset st
  /\ Euler.x (rotation (node (lowerPyramid st))) = Math_PI
  /\ Euler.x (rotation (node (upperPyramid st))) = 0.

(** The fields of the glass material that no control is bound to. *)
Definition glassFixedFields (m : MeshPhysicalMaterial) : Prop :=
  metalness m = 0
  /\ clearcoat m = 1
  /\ clearcoatRoughness m = 0
  /\ envMapIntensity m = 1
  /\ side m = DoubleSide.

(** The camera's aspect ratio is that of the drawing surface. *)
Definition aspectMatchesSize (st : State) : Prop :=
  camera_aspect st = fst (renderer_size st) / snd (renderer_size st).

(** The drag flag as the pointer buttons alone would set it. *)
Definition dragAfter (dragging : bool) (e : Event) : bool :=
  match e with
  | MouseDown _ _ => true
  | MouseUp | MouseLeave => false
  | _ => dragging
  end.

(** A shape selection that the drop-down can produce; any other event. *)
Definition shapeFromOptions (e : Event) : bool :=
  match e with
  | Gui (SetShape s) => existsb (String.eqb s) shapeOptions
  | _ => true
  end.

Definition exactlyOneShapeVisible (st : State) : Prop :=
  xorb (visible (singlePyramidGroup st)) (visible (biPyramidGroup st)) = true.

(** The rotation of the dust cloud about the vertical axis. *)
Definition dustRotationY (st : State) : number :=
  Euler.y (rotation (node (particles st))).

(** The panel write to glass parameter [q]. *)
Definition writesGlassParam (q : GlassParam) (e : Event) : bool :=
  match e with
  | Gui (SetGlass p _) => GlassParam_eqb p q
  | _ => false
  end.

(** The beam and the dust cloud each keep the material they were built
    with. *)
Definition decorationsKeepOwnMaterials (st : State) : Prop :=
  material (inputBeam st) = inputBeamMaterialRef
  /\ material (particles st) = particleMaterialRef.

(** ** Sanity checks of the embedding on concrete runs *)

Example init_shows_bipyramid :
  visible (singlePyramidGroup (init 1280 720)) = false
  /\ visible (biPyramidGroup (init 1280 720)) = true.
Proof. split; reflexivity. Qed.

Example init_offsets :
  upperOffset (init 1280 720) = 1.05 /\ lowerOffset (init 1280 720) = -1.05.
Proof. split; reflexivity. Qed.

Example init_display_rotate_y :
  gui (init 1280 720) prismRotateYCtl = VNumber (Math_PI / 4).
Proof. reflexivity. Qed.

Example first_tick_angle :
  rotationY (step (init 1280 720) AnimationFrame) = 0.78839816339744828.
Proof. reflexivity. Qed.

(** ** The control panel only redraws *)

Lemma GlassParam_eqb_eq (p q : GlassParam) :
  GlassParam_eqb p q = true <-> p = q.
Proof. destruct p, q; simpl; split; congruence. Qed.

Lemma Controller_eqb_eq (c d : Controller) :
  Controller_eqb c d = true <-> c = d.
Proof.
  destruct c, d; simpl; try (split; congruence).
  rewrite GlassParam_eqb_eq. split; congruence.
Qed.

Lemma getValue_updateDisplay (c d : Controller) (st : State) :
  getValue d (updateDisplay c st) = getValue d st.
Proof. destruct d; reflexivity. Qed.

Lemma updateDisplays_frame (cs : list Controller) (st : State) :
  fold_left (fun s c => updateDisplay c s) cs st
  = set_gui (gui (fold_left (fun s c => updateDisplay c s) cs st)) st.
Proof.
  revert st. induction cs as [ | c cs IH]; intros st; simpl.
  - destruct st; reflexivity.
  - rewrite IH at 1. reflexivity.
Qed.

Lemma updateDisplays_gui (cs : list Controller) (st : State) (d : Controller) :
  gui (fold_left (fun s c => updateDisplay c s) cs st) d
  = if existsb (fun c => Controller_eqb c d) cs then getValue d st
    else gui st d.
Proof.
  revert st. induction cs as [ | c cs IH]; intros st; simpl.
  - reflexivity.
  - rewrite IH, getValue_updateDisplay.
    destruct (existsb (fun c0 => Controller_eqb c0 d) cs).
    + rewrite orb_true_r. reflexivity.
    + rewrite orb_false_r. unfold updateDisplay; simpl.
      destruct (Controller_eqb c d) eqn:E; [ | reflexivity ].
      apply Controller_eqb_eq in E. subst d. reflexivity.
Qed.

Lemma updateAllDisplays_frame (st : State) :
  updateAllDisplays st = set_gui (gui (updateAllDisplays st)) st.
Proof. apply updateDisplays_frame. Qed.

Lemma updateAllDisplays_upToDate (st : State) (c : Controller) :
  upToDate (updateAllDisplays st) c.
Proof.
  unfold upToDate, updateAllDisplays.
  rewrite updateDisplays_gui.
  replace (existsb (fun c0 => Controller_eqb c0 c) controllersRecursive)
    with true by (destruct c as [ | | | | | | | p | | | | | ];
                  try reflexivity; destruct p; reflexivity).
  rewrite (updateDisplays_frame controllersRecursive st).
  destruct c; reflexivity.
Qed.

Lemma updateAllDisplays_settings (st : State) :
  settings (updateAllDisplays st) = settings st.
Proof. rewrite updateAllDisplays_frame. reflexivity. Qed.

Lemma updateAllDisplays_prismGroup (st : State) :
  prismGroup (updateAllDisplays st) = prismGroup st.
Proof. rewrite updateAllDisplays_frame. reflexivity. Qed.

(** ** Orientation: stored angles and actual rotation *)

Lemma step_preserves_orientationSynced (st : State) (e : Event) :
  orientationSynced st -> orientationSynced (step st e).
Proof.
  unfold orientationSynced.
  intros (Hx & Hy & Hz).
  event_cases st e; vm_compute; repeat split; assumption.
Qed.

Lemma init_orientationSynced (w h : number) : orientationSynced (init w h).
Proof.
  unfold orientationSynced, init.
  rewrite updateAllDisplays_settings, updateAllDisplays_prismGroup.
  repeat split.
Qed.

Lemma reachable_orientationSynced (st : State) :
  reachable st -> orientationSynced st.
Proof.
  induction 1 as [w h | st e _ IH].
  - apply init_orientationSynced.
  - apply step_preserves_orientationSynced, IH.
Qed.

(** Each writer, taken alone and from any state whatever, stores the very
    number it puts into the rotation. *)
Lemma panel_rotate_x_writes_both (st : State) (v : number) :
  Settings.prismRotateX (settings (step st (Gui (SetPrismRotateX v)))) = v
  /\ rotationX (step st (Gui (SetPrismRotateX v))) = v.
Proof. split; reflexivity. Qed.

Lemma panel_rotate_y_writes_both (st : State) (v : number) :
  Settings.prismRotateY (settings (step st (Gui (SetPrismRotateY v)))) = v
  /\ rotationY (step st (Gui (SetPrismRotateY v))) = v.
Proof. split; reflexivity. Qed.

Lemma panel_rotate_z_writes_both (st : State) (v : number) :
  Settings.prismRotateZ (settings (step st (Gui (SetPrismRotateZ v)))) = v
  /\ rotationZ (step st (Gui (SetPrismRotateZ v))) = v.
Proof. split; reflexivity. Qed.

(** C1.  In every state the program can reach, a write to the orientation by
    any of its three writers (a rotation slider of the panel, a pointer move,
    an animation tick) leaves [settings.prismRotateX/Y/Z] equal to the
    corresponding component of [prismGroup.rotation]. *)
Theorem orientation_writers_keep_settings_in_sync :
  forall (st : State) (e : Event),
    reachable st ->
    isOrientationWriter e = true ->
    orientationSynced (step st e).
Proof.
  intros st e Hreach _.
  apply step_preserves_orientationSynced.
  apply reachable_orientationSynced, Hreach.
Qed.

Lemma orientation_writers_keep_settings_in_sync_witness :
  orientationSynced (step (init 1280 720) AnimationFrame)
  /\ orientationSynced (step (step (init 1280 720) (MouseDown 100 100))
                          (MouseMove 110 115))
  /\ orientationSynced (step (init 1280 720) (Gui (SetPrismRotateZ 1.5))).
Proof.
  split; [ | split ].
  - apply (orientation_writers_keep_settings_in_sync
             (init 1280 720) AnimationFrame).
    + apply reachable_init.
    + reflexivity.
  - apply (orientation_writers_keep_settings_in_sync
             (step (init 1280 720) (MouseDown 100 100)) (MouseMove 110 115)).
    + apply reachable_step, reachable_init.
    + reflexivity.
  - apply (orientation_writers_keep_settings_in_sync
             (init 1280 720) (Gui (SetPrismRotateZ 1.5))).
    + apply reachable_init.
    + reflexivity.
Defined.

(** ** Write-back and redraw after a pointer move and after a tick *)

Lemma getValue_set_previousMousePosition (c : Controller) (p : Point.t)
    (st : State) :
  getValue c (set_previousMousePosition p st) = getValue c st.
Proof. destruct c; reflexivity. Qed.

Lemma gui_set_previousMousePosition (p : Point.t) (st : State) :
  gui (set_previousMousePosition p st) = gui st.
Proof. reflexivity. Qed.

(** A pointer move during a drag ends with the redraw of the whole panel,
    followed only by the update of the remembered pointer position. *)
Lemma onMouseMove_dragging_shape (st : State) (x y : number) :
  isDragging st = true ->
  exists st4 : State,
    onMouseMove x y st
    = set_previousMousePosition (Point.mk x y) (updateAllDisplays st4).
Proof.
  intros Hdrag. unfold onMouseMove. rewrite Hdrag.
  change (negb true) with false.
  eexists. reflexivity.
Qed.

Lemma mousemove_redraws_every_controller (st : State) (x y : number)
    (c : Controller) :
  isDragging st = true -> upToDate (step st (MouseMove x y)) c.
Proof.
  intros Hdrag.
  destruct (onMouseMove_dragging_shape st x y Hdrag) as [st4 Hshape].
  unfold upToDate, step. rewrite Hshape.
  rewrite getValue_set_previousMousePosition.
  rewrite gui_set_previousMousePosition.
  apply updateAllDisplays_upToDate.
Qed.

Lemma mousemove_writes_back (st : State) (x y : number) :
  isDragging st = true ->
  Settings.prismRotateY (settings (step st (MouseMove x y)))
  = rotationY (step st (MouseMove x y))
  /\ Settings.prismRotateX (settings (step st (MouseMove x y)))
     = rotationX (step st (MouseMove x y)).
Proof.
  intros Hdrag. unfold rotationX, rotationY, step, onMouseMove.
  rewrite Hdrag. vm_compute. split; reflexivity.
Qed.

(** [animate] writes the new angle into [settings] ... *)
Lemma animate_writes_back (st : State) :
  Settings.autoRotate (settings st) = true ->
  isDragging st = false ->
  Settings.prismRotateY (settings (animate st)) = rotationY (animate st).
Proof.
  intros Hauto Hdrag. unfold rotationY, animate.
  rewrite Hauto, Hdrag. reflexivity.
Qed.

(** ... but never touches what the panel shows. *)
Lemma animate_never_redraws (st : State) : gui (animate st) = gui st.
Proof.
  unfold animate.
  destruct (Settings.autoRotate (settings st) && negb (isDragging st));
    reflexivity.
Qed.

(** C2 (not met on the tick path).  On the first
    animation tick after load, auto-rotation moves the group's Y angle from
    [Math.PI / 4] to 0.78839816339744828 and stores that number in
    [settings.prismRotateY], yet the Rotate Y control still shows
    [Math.PI / 4]: [animate] does not redraw the panel, whereas the pointer-move
    handler does (lemma [mousemove_redraws_every_controller]). *)
Theorem tick_leaves_rotate_y_display_stale :
  let st := step (init 1280 720) AnimationFrame in
  rotationY st = 0.78839816339744828
  /\ Settings.prismRotateY (settings st) = rotationY st
  /\ gui st prismRotateYCtl = VNumber (Math_PI / 4)
  /\ ~ upToDate st prismRotateYCtl.
Proof.
  cbv zeta. repeat split.
  unfold upToDate. intros Heq.
  apply (f_equal (fun v => match v with
                           | VNumber n => PrimFloat.eqb n (Math_PI / 4)
                           | _ => false
                           end)) in Heq.
  vm_compute in Heq. discriminate Heq.
Qed.

(** ** Shape selection *)

Lemma setActiveShape_visibility (st : State) (k : string) :
  visible (singlePyramidGroup (setActiveShape k st))
  = String.eqb k "Single Pyramid"
  /\ visible (biPyramidGroup (setActiveShape k st))
     = String.eqb k "Bi-Pyramid".
Proof. split; reflexivity. Qed.

Lemma setActiveShape_idempotent (st : State) (k : string) :
  setActiveShape k (setActiveShape k st) = setActiveShape k st.
Proof. reflexivity. Qed.

(** Apart from the two flags, [setActiveShape] returns the state it got. *)
Lemma setActiveShape_frame (st : State) (k : string) :
  withShapeVisibility (visible (singlePyramidGroup st))
    (visible (biPyramidGroup st)) (setActiveShape k st) = st.
Proof.
  destruct st as [gm bm pm pg sg bg sp up lp gap li ib fd pa ca rs se gu dr mp].
  destruct sg, bg. reflexivity.
Qed.

(** C3.  For each of the two options of the shape drop-down, after
    [setActiveShape] exactly one of the two shape groups is visible; calling
    it again with the same option changes nothing; and restoring the two
    visibility flags gives back the state before the call, so nothing else
    was written. *)
Theorem setActiveShape_exactly_one_visible :
  forall (st : State) (k : string),
    In k shapeOptions ->
    xorb (visible (singlePyramidGroup (setActiveShape k st)))
         (visible (biPyramidGroup (setActiveShape k st))) = true
    /\ setActiveShape k (setActiveShape k st) = setActiveShape k st
    /\ withShapeVisibility (visible (singlePyramidGroup st))
         (visible (biPyramidGroup st)) (setActiveShape k st) = st.
Proof.
  intros st k Hin. split; [ | split ].
  - destruct (setActiveShape_visibility st k) as [-> ->].
    destruct Hin as [<- | [<- | []]]; reflexivity.
  - apply setActiveShape_idempotent.
  - apply setActiveShape_frame.
Qed.

Lemma setActiveShape_exactly_one_visible_witness :
  xorb (visible (singlePyramidGroup
                   (setActiveShape "Single Pyramid" (init 1280 720))))
       (visible (biPyramidGroup
                   (setActiveShape "Single Pyramid" (init 1280 720)))) = true
  /\ setActiveShape "Single Pyramid"
       (setActiveShape "Single Pyramid" (init 1280 720))
     = setActiveShape "Single Pyramid" (init 1280 720)
  /\ withShapeVisibility (visible (singlePyramidGroup (init 1280 720)))
       (visible (biPyramidGroup (init 1280 720)))
       (setActiveShape "Single Pyramid" (init 1280 720))
     = init 1280 720.
Proof.
  apply (setActiveShape_exactly_one_visible (init 1280 720) "Single Pyramid").
  simpl. left. reflexivity.
Defined.

(** The flags are exclusive exactly for the two options. *)
Lemma setActiveShape_xor_iff (st : State) (s : string) :
  xorb (visible (singlePyramidGroup (setActiveShape s st)))
       (visible (biPyramidGroup (setActiveShape s st))) = true
  <-> In s shapeOptions.
Proof.
  destruct (setActiveShape_visibility st s) as [-> ->].
  unfold shapeOptions; simpl.
  destruct (String.eqb_spec s "Single Pyramid") as [-> | Hs].
  - simpl. split; auto.
  - destruct (String.eqb_spec s "Bi-Pyramid") as [-> | Hb].
    + simpl. split; auto.
    + simpl. split; [ discriminate | ].
      intros [E | [E | []]]; congruence.
Qed.

(** C9.  A string that is neither of the two options hides both shape
    groups, so the two flags are then not exclusive. *)
Theorem setActiveShape_other_string_hides_both :
  forall (st : State) (s : string),
    s <> "Single Pyramid" ->
    s <> "Bi-Pyramid" ->
    visible (singlePyramidGroup (setActiveShape s st)) = false
    /\ visible (biPyramidGroup (setActiveShape s st)) = false
    /\ xorb (visible (singlePyramidGroup (setActiveShape s st)))
            (visible (biPyramidGroup (setActiveShape s st))) = false.
Proof.
  intros st s Hs Hb.
  destruct (setActiveShape_visibility st s) as [-> ->].
  apply String.eqb_neq in Hs. apply String.eqb_neq in Hb.
  rewrite Hs, Hb. repeat split.
Qed.

Lemma setActiveShape_other_string_hides_both_witness :
  visible (singlePyramidGroup (setActiveShape "Cube" (init 1280 720))) = false
  /\ visible (biPyramidGroup (setActiveShape "Cube" (init 1280 720))) = false
  /\ xorb (visible (singlePyramidGroup (setActiveShape "Cube" (init 1280 720))))
          (visible (biPyramidGroup (setActiveShape "Cube" (init 1280 720))))
     = false.
Proof.
  apply (setActiveShape_other_string_hides_both (init 1280 720) "Cube");
    discriminate.
Defined.

(** ** The gap between the two halves of the bi-pyramid *)

Lemma updateBiPyramidGap_offsets (st : State) (g : number) :
  upperOffset (updateBiPyramidGap g st) = biPyramidHeight / 2 + g / 2
  /\ lowerOffset (updateBiPyramidGap g st) = - (biPyramidHeight / 2 + g / 2).
Proof. split; reflexivity. Qed.

Lemma updateBiPyramidGap_stores_gap (st : State) (g : number) :
  biPyramidGap (updateBiPyramidGap g st) = g.
Proof. reflexivity. Qed.

(** The slider of the panel hands its value to [updateBiPyramidGap]
    unchanged. *)
Lemma panel_gap_offsets (st : State) (g : number) :
  upperOffset (step st (Gui (SetBiPyramidGap g))) = biPyramidHeight / 2 + g / 2
  /\ lowerOffset (step st (Gui (SetBiPyramidGap g)))
     = - (biPyramidHeight / 2 + g / 2).
Proof. split; reflexivity. Qed.

(** C4.  For a gap [g] in [0,1], one call of [updateBiPyramidGap g] leaves
    the upper half at [height/2 + g/2] and the lower half at
    [-(height/2 + g/2)], so the lower offset is the negation of the upper
    one; the same holds when the value comes from the panel slider. *)
Theorem updateBiPyramidGap_in_range :
  forall (st : State) (g : number),
    (0 <=? g) = true ->
    (g <=? 1) = true ->
    upperOffset (updateBiPyramidGap g st) = biPyramidHeight / 2 + g / 2
    /\ lowerOffset (updateBiPyramidGap g st)
       = - (biPyramidHeight / 2 + g / 2)
    /\ lowerOffset (updateBiPyramidGap g st)
       = - upperOffset (updateBiPyramidGap g st)
    /\ upperOffset (step st (Gui (SetBiPyramidGap g)))
       = biPyramidHeight / 2 + g / 2
    /\ lowerOffset (step st (Gui (SetBiPyramidGap g)))
       = - upperOffset (step st (Gui (SetBiPyramidGap g))).
Proof.
  intros st g _ _.
  destruct (updateBiPyramidGap_offsets st g) as [Hu Hl].
  destruct (panel_gap_offsets st g) as [Hpu Hpl].
  rewrite Hpl, Hpu, Hl, Hu. repeat split.
Qed.

(** The two ends of the range: the halves touch at [g = 0] and are furthest
    apart at [g = 1]. *)
Lemma updateBiPyramidGap_in_range_witness :
  (upperOffset (updateBiPyramidGap 0 (init 1280 720)) = biPyramidHeight / 2 + 0 / 2
   /\ lowerOffset (updateBiPyramidGap 0 (init 1280 720))
      = - (biPyramidHeight / 2 + 0 / 2)
   /\ lowerOffset (updateBiPyramidGap 0 (init 1280 720))
      = - upperOffset (updateBiPyramidGap 0 (init 1280 720))
   /\ upperOffset (step (init 1280 720) (Gui (SetBiPyramidGap 0)))
      = biPyramidHeight / 2 + 0 / 2
   /\ lowerOffset (step (init 1280 720) (Gui (SetBiPyramidGap 0)))
      = - upperOffset (step (init 1280 720) (Gui (SetBiPyramidGap 0))))
  /\
  (upperOffset (updateBiPyramidGap 1 (init 1280 720)) = biPyramidHeight / 2 + 1 / 2
   /\ lowerOffset (updateBiPyramidGap 1 (init 1280 720))
      = - (biPyramidHeight / 2 + 1 / 2)
   /\ lowerOffset (updateBiPyramidGap 1 (init 1280 720))
      = - upperOffset (updateBiPyramidGap 1 (init 1280 720))
   /\ upperOffset (step (init 1280 720) (Gui (SetBiPyramidGap 1)))
      = biPyramidHeight / 2 + 1 / 2
   /\ lowerOffset (step (init 1280 720) (Gui (SetBiPyramidGap 1)))
      = - upperOffset (step (init 1280 720) (Gui (SetBiPyramidGap 1)))).
Proof.
  split.
  - apply (updateBiPyramidGap_in_range (init 1280 720) 0); reflexivity.
  - apply (updateBiPyramidGap_in_range (init 1280 720) 1); reflexivity.
Defined.

Example gap_ends_in_numbers :
  upperOffset (updateBiPyramidGap 0 (init 1280 720)) = 0.97500000000000009
  /\ lowerOffset (updateBiPyramidGap 0 (init 1280 720)) = -0.97500000000000009
  /\ upperOffset (updateBiPyramidGap 1 (init 1280 720)) = 1.4750000000000001
  /\ lowerOffset (updateBiPyramidGap 1 (init 1280 720)) = -1.4750000000000001.
Proof. repeat split. Qed.

(** C10.  [updateBiPyramidGap] does not clamp: whatever number it is given,
    inside [0,1] or not, it stores that number, puts the upper half at
    [height/2 + g/2] and the lower half at the negation of that. *)
Theorem updateBiPyramidGap_unclamped_symmetric :
  forall (st : State) (g : number),
    biPyramidGap (updateBiPyramidGap g st) = g
    /\ upperOffset (updateBiPyramidGap g st) = biPyramidHeight / 2 + g / 2
    /\ lowerOffset (updateBiPyramidGap g st)
       = - (biPyramidHeight / 2 + g / 2)
    /\ lowerOffset (updateBiPyramidGap g st)
       = - upperOffset (updateBiPyramidGap g st).
Proof.
  intros st g.
  destruct (updateBiPyramidGap_offsets st g) as [Hu Hl].
  rewrite Hl, Hu. repeat split.
Qed.

Example gap_outside_range :
  upperOffset (updateBiPyramidGap (-1) (init 1280 720)) = 0.47500000000000009
  /\ lowerOffset (updateBiPyramidGap (-1) (init 1280 720))
     = -0.47500000000000009
  /\ upperOffset (updateBiPyramidGap 3 (init 1280 720)) = 2.4750000000000001
  /\ lowerOffset (updateBiPyramidGap 3 (init 1280 720)) = -2.4750000000000001.
Proof. repeat split. Qed.

(** ** Auto-rotation *)

(** What one run of [animate] does to the prism group's rotation. *)
Lemma animate_rotation (st : State) :
  rotation (prismGroup (animate st))
  = if Settings.autoRotate (settings st) && negb (isDragging st)
    then Euler.set_y
           (rotationY st + Settings.autoRotateSpeed (settings st) * 0.01)
           (rotation (prismGroup st))
    else rotation (prismGroup st).
Proof.
  unfold animate, rotationY.
  destruct (Settings.autoRotate (settings st) && negb (isDragging st));
    reflexivity.
Qed.

(** It changes neither the auto-rotate controls nor the drag flag. *)
Lemma animate_controls (st : State) :
  Settings.autoRotate (settings (animate st))
  = Settings.autoRotate (settings st)
  /\ Settings.autoRotateSpeed (settings (animate st))
     = Settings.autoRotateSpeed (settings st)
  /\ isDragging (animate st) = isDragging st.
Proof.
  unfold animate.
  destruct (Settings.autoRotate (settings st) && negb (isDragging st));
    repeat split.
Qed.

Lemma run_ticks_succ (st : State) (n : nat) :
  run st (repeat AnimationFrame (S n))
  = run (animate st) (repeat AnimationFrame n).
Proof. reflexivity. Qed.

(** C5 (as amended).  Over [n] consecutive animation ticks, with auto-rotate
    enabled and no drag in progress, the Y angle is the result of applying
    the update [y := y + speed * 0.01] [n] times, each addition rounded as
    binary64 addition is; with auto-rotate off or a drag in progress the
    Y angle does not move, whatever the speed.  X and Z never move.  One
    tick is the case [n = 1]. *)
Theorem auto_rotate_ticks :
  forall (st : State) (n : nat),
    rotationY (run st (repeat AnimationFrame n))
    = (if Settings.autoRotate (settings st) && negb (isDragging st)
       then Nat.iter n
              (fun y => y + Settings.autoRotateSpeed (settings st) * 0.01)
              (rotationY st)
       else rotationY st)
    /\ rotationX (run st (repeat AnimationFrame n)) = rotationX st
    /\ rotationZ (run st (repeat AnimationFrame n)) = rotationZ st
    /\ rotationY (step st AnimationFrame)
       = (if Settings.autoRotate (settings st) && negb (isDragging st)
          then rotationY st + Settings.autoRotateSpeed (settings st) * 0.01
          else rotationY st).
Proof.
  intros st n.
  assert (Hone :
    rotationY (step st AnimationFrame)
    = (if Settings.autoRotate (settings st) && negb (isDragging st)
       then rotationY st + Settings.autoRotateSpeed (settings st) * 0.01
       else rotationY st)).
  { unfold rotationY at 1. unfold step. rewrite animate_rotation.
    destruct (Settings.autoRotate (settings st) && negb (isDragging st));
      reflexivity. }
  split; [ | split; [ | split; [ | exact Hone ] ] ]; clear Hone.
  - revert st. induction n as [ | n IH]; intros st.
    + destruct (Settings.autoRotate (settings st) && negb (isDragging st));
        reflexivity.
    + rewrite run_ticks_succ, IH.
      destruct (animate_controls st) as (-> & -> & ->).
      unfold rotationY at 1 2. rewrite animate_rotation.
      destruct (Settings.autoRotate (settings st) && negb (isDragging st)).
      * rewrite Nat.iter_succ_r. reflexivity.
      * reflexivity.
  - revert st. induction n as [ | n IH]; intros st.
    + reflexivity.
    + rewrite run_ticks_succ, IH.
      unfold rotationX. rewrite animate_rotation.
      destruct (Settings.autoRotate (settings st) && negb (isDragging st));
        reflexivity.
  - revert st. induction n as [ | n IH]; intros st.
    + reflexivity.
    + rewrite run_ticks_succ, IH.
      unfold rotationZ. rewrite animate_rotation.
      destruct (Settings.autoRotate (settings st) && negb (isDragging st));
        reflexivity.
Qed.

(** While the pointer is down, ticks leave the whole rotation alone. *)
Lemma ticks_while_dragging (st : State) (n : nat) :
  isDragging st = true ->
  rotation (prismGroup (run st (repeat AnimationFrame n)))
  = rotation (prismGroup st).
Proof.
  revert st. induction n as [ | n IH]; intros st Hdrag.
  - reflexivity.
  - rewrite run_ticks_succ, IH.
    + rewrite animate_rotation, Hdrag, andb_false_r. reflexivity.
    + destruct (animate_controls st) as (_ & _ & ->). exact Hdrag.
Qed.

(** C5 as originally worded does not hold on binary64 numbers.  From the
    freshly loaded page (auto-rotate on, speed 0.3, no drag), 21 ticks take
    the Y angle from [Math.PI / 4] to 0.84839816339744833, whereas
    [Math.PI / 4 + 21 * 0.3 * 0.01] is 0.84839816339744822; nor is the
    difference of the two angles the number [21 * 0.3 * 0.01]. *)
Lemma auto_rotate_exact_multiple_counterexample :
  let st := init 1280 720 in
  let st' := run st (repeat AnimationFrame 21) in
  Settings.autoRotate (settings st) = true
  /\ isDragging st = false
  /\ Settings.autoRotateSpeed (settings st) = 0.3
  /\ rotationY st' = 0.84839816339744833
  /\ rotationY st' <> rotationY st + 21 * 0.3 * 0.01
  /\ rotationY st' <> rotationY st + 21 * (0.3 * 0.01)
  /\ rotationY st' - rotationY st <> 21 * 0.3 * 0.01.
Proof.
  cbv zeta.
  split; [ reflexivity | ].
  split; [ reflexivity | ].
  split; [ reflexivity | ].
  split; [ vm_compute; reflexivity | ].
  split; [ | split ].
  - float_neq 0.84839816339744822.
  - float_neq 0.84839816339744822.
  - float_neq 0.063.
Qed.

(** ** Dragging *)

Lemma onMouseDown_effect (st : State) (a b : number) :
  isDragging (step st (MouseDown a b)) = true
  /\ previousMousePosition (step st (MouseDown a b)) = Point.mk a b
  /\ rotation (prismGroup (step st (MouseDown a b)))
     = rotation (prismGroup st).
Proof. repeat split. Qed.

(** A pointer move during a drag, field by field. *)
Lemma onMouseMove_dragging (st : State) (x y : number) :
  isDragging st = true ->
  rotation (prismGroup (onMouseMove x y st))
  = Euler.mk
      (rotationX st + (y - Point.y (previousMousePosition st)) * 0.005)
      (rotationY st + (x - Point.x (previousMousePosition st)) * 0.005)
      (rotationZ st)
  /\ previousMousePosition (onMouseMove x y st) = Point.mk x y
  /\ isDragging (onMouseMove x y st) = true.
Proof.
  intros Hdrag.
  unfold onMouseMove, rotationX, rotationY, rotationZ. rewrite Hdrag.
  vm_compute. repeat split. exact Hdrag.
Qed.

Lemma drag_example (st : State) :
  rotationY (run st [MouseDown 100 100; MouseMove 110 115])
  = rotationY st + 0.05
  /\ rotationX (run st [MouseDown 100 100; MouseMove 110 115])
     = rotationX st + 0.075.
Proof.
  assert (Hdown : isDragging (onMouseDown 100 100 st) = true) by reflexivity.
  destruct (onMouseMove_dragging _ 110 115 Hdown) as (Hrot & _ & _).
  change (run st [MouseDown 100 100; MouseMove 110 115])
    with (onMouseMove 110 115 (onMouseDown 100 100 st)).
  unfold rotationX at 1, rotationY at 1.
  rewrite Hrot. split; reflexivity.
Qed.

(** C6.  While dragging, a pointer move to [(x, y)] adds
    [(x - previous x) * 0.005] to the Y angle and
    [(y - previous y) * 0.005] to the X angle, leaves Z alone, and becomes
    the position the next move is measured from, just as the pointer-down
    position is for the first move.  Pointer-down at (100,100) followed by a
    move to (110,115) adds 0.05 to the Y angle and 0.075 to the X angle. *)
Theorem drag_applies_scaled_deltas :
  forall (st : State) (x y : number),
    isDragging st = true ->
    rotationY (step st (MouseMove x y))
    = rotationY st + (x - Point.x (previousMousePosition st)) * 0.005
    /\ rotationX (step st (MouseMove x y))
       = rotationX st + (y - Point.y (previousMousePosition st)) * 0.005
    /\ rotationZ (step st (MouseMove x y)) = rotationZ st
    /\ previousMousePosition (step st (MouseMove x y)) = Point.mk x y
    /\ (forall a b : number,
          isDragging (step st (MouseDown a b)) = true
          /\ previousMousePosition (step st (MouseDown a b)) = Point.mk a b)
    /\ rotationY (run st [MouseDown 100 100; MouseMove 110 115])
       = rotationY st + 0.05
    /\ rotationX (run st [MouseDown 100 100; MouseMove 110 115])
       = rotationX st + 0.075.
Proof.
  intros st x y Hdrag.
  destruct (onMouseMove_dragging st x y Hdrag) as (Hrot & Hprev & _).
  destruct (drag_example st) as (Hey & Hex).
  change (step st (MouseMove x y)) with (onMouseMove x y st).
  unfold rotationX at 1, rotationY at 1, rotationZ at 1.
  rewrite Hrot, Hprev, Hey, Hex.
  repeat split.
Qed.

Lemma drag_applies_scaled_deltas_witness :
  let st := step (init 1280 720) (MouseDown 100 100) in
  rotationY (step st (MouseMove 110 115))
  = rotationY st + (110 - Point.x (previousMousePosition st)) * 0.005
  /\ rotationX (step st (MouseMove 110 115))
     = rotationX st + (115 - Point.y (previousMousePosition st)) * 0.005
  /\ rotationZ (step st (MouseMove 110 115)) = rotationZ st
  /\ previousMousePosition (step st (MouseMove 110 115)) = Point.mk 110 115
  /\ (forall a b : number,
        isDragging (step st (MouseDown a b)) = true
        /\ previousMousePosition (step st (MouseDown a b)) = Point.mk a b)
  /\ rotationY (run st [MouseDown 100 100; MouseMove 110 115])
     = rotationY st + 0.05
  /\ rotationX (run st [MouseDown 100 100; MouseMove 110 115])
     = rotationX st + 0.075.
Proof.
  apply (drag_applies_scaled_deltas
           (step (init 1280 720) (MouseDown 100 100)) 110 115).
  reflexivity.
Defined.

(** The same drag on the freshly loaded page, in numbers. *)
Example drag_from_load :
  rotationY (run (init 1280 720) [MouseDown 100 100; MouseMove 110 115])
  = 0.83539816339744832
  /\ rotationX (run (init 1280 720) [MouseDown 100 100; MouseMove 110 115])
     = 0.5985987755982988
  /\ (110 - 100) * 0.005 = 0.05
  /\ (115 - 100) * 0.005 = 0.075.
Proof. repeat split. Qed.

(** A second move is measured from the first one. *)
Example drag_two_moves :
  forall st : State,
    rotationY (run st [MouseDown 100 100; MouseMove 110 115; MouseMove 130 115])
    = rotationY st + 0.05 + 0.1.
Proof.
  intros st.
  assert (H1 : isDragging (onMouseDown 100 100 st) = true) by reflexivity.
  destruct (onMouseMove_dragging _ 110 115 H1) as (R1 & P1 & D1).
  destruct (onMouseMove_dragging _ 130 115 D1) as (R2 & _ & _).
  change (run st [MouseDown 100 100; MouseMove 110 115; MouseMove 130 115])
    with (onMouseMove 130 115 (onMouseMove 110 115 (onMouseDown 100 100 st))).
  unfold rotationY at 1. rewrite R2.
  unfold rotationY at 1. rewrite R1, P1. reflexivity.
Qed.

(** ** Idle and dragging *)

(** Only a pointer-down raises the drag flag. *)
Lemma step_keeps_idle (st : State) (e : Event) :
  isDragging st = false ->
  isMouseDown e = false ->
  isDragging (step st e) = false.
Proof.
  intros Hidle Hnot.
  destruct e as [ i | a b | a b | | | w h | ].
  - destruct i; exact Hidle.
  - discriminate Hnot.
  - unfold step, onMouseMove. rewrite Hidle. exact Hidle.
  - reflexivity.
  - reflexivity.
  - exact Hidle.
  - destruct (animate_controls st) as (_ & _ & Hd).
    unfold step. rewrite Hd. exact Hidle.
Qed.

Lemma run_keeps_idle (es : list Event) (st : State) :
  isDragging st = false ->
  existsb isMouseDown es = false ->
  isDragging (run st es) = false.
Proof.
  revert st. induction es as [ | e es IH]; intros st Hidle Hnone.
  - exact Hidle.
  - simpl in Hnone. apply orb_false_iff in Hnone as [He Hes].
    change (run st (e :: es)) with (run (step st e) es).
    apply IH; [ apply step_keeps_idle; assumption | exact Hes ].
Qed.

(** A pointer move outside a drag returns the state it was given. *)
Lemma mousemove_idle (st : State) (x y : number) :
  isDragging st = false -> step st (MouseMove x y) = st.
Proof.
  intros Hidle. unfold step, onMouseMove. rewrite Hidle. reflexivity.
Qed.

(** C7.  After a pointer-up or a pointer-leave, and after any further events
    among which there is no pointer-down, a pointer move changes nothing: the
    state, and so the prism group's rotation, is the one before the move. *)
Theorem mousemove_after_release_is_ignored :
  forall (st : State) (release : Event) (es : list Event) (x y : number),
    release = MouseUp \/ release = MouseLeave ->
    existsb isMouseDown es = false ->
    step (run (step st release) es) (MouseMove x y) = run (step st release) es
    /\ rotation (prismGroup (step (run (step st release) es) (MouseMove x y)))
       = rotation (prismGroup (run (step st release) es)).
Proof.
  intros st release es x y Hrel Hnone.
  assert (Hidle : isDragging (run (step st release) es) = false).
  { apply run_keeps_idle; [ | exact Hnone ].
    destruct Hrel as [-> | ->]; reflexivity. }
  rewrite (mousemove_idle _ x y Hidle). split; reflexivity.
Qed.

Lemma mousemove_after_release_is_ignored_witness :
  let st := run (init 1280 720) [MouseDown 100 100; MouseMove 110 115] in
  let es := [MouseMove 120 130; AnimationFrame; Gui (SetPrismRotateZ 1)] in
  step (run (step st MouseLeave) es) (MouseMove 300 40)
  = run (step st MouseLeave) es
  /\ rotation (prismGroup (step (run (step st MouseLeave) es)
                             (MouseMove 300 40)))
     = rotation (prismGroup (run (step st MouseLeave) es)).
Proof.
  apply (mousemove_after_release_is_ignored
           (run (init 1280 720) [MouseDown 100 100; MouseMove 110 115])
           MouseLeave
           [MouseMove 120 130; AnimationFrame; Gui (SetPrismRotateZ 1)]
           300 40).
  - right. reflexivity.
  - reflexivity.
Defined.

(** The next pointer-down makes moves count again. *)
Example mousemove_after_next_mousedown :
  rotationY (run (init 1280 720)
               [MouseDown 0 0; MouseUp; MouseMove 10 10])
  = Math_PI / 4
  /\ rotationY (run (init 1280 720)
                  [MouseDown 0 0; MouseUp; MouseDown 10 10; MouseMove 20 10])
     = 0.83539816339744832.
Proof. split; vm_compute; reflexivity. Qed.

(** ** The shared glass material *)

(** No handler re-points a mesh to another material. *)
Lemma step_preserves_solidsShareGlass (st : State) (e : Event) :
  solidsShareGlass st -> solidsShareGlass (step st e).
Proof.
  unfold solidsShareGlass.
  intros (Hs & Hu & Hl).
  event_cases st e; vm_compute; repeat split; assumption.
Qed.

Lemma init_solidsShareGlass (w h : number) : solidsShareGlass (init w h).
Proof.
  unfold solidsShareGlass, init.
  rewrite updateAllDisplays_frame. repeat split.
Qed.

Lemma reachable_solidsShareGlass (st : State) :
  reachable st -> solidsShareGlass st.
Proof.
  induction 1 as [w h | st e _ IH].
  - apply init_solidsShareGlass.
  - apply step_preserves_solidsShareGlass, IH.
Qed.

Lemma run_reachable (es : list Event) (st : State) :
  reachable st -> reachable (run st es).
Proof.
  revert st. induction es as [ | e es IH]; intros st Hst.
  - exact Hst.
  - change (run st (e :: es)) with (run (step st e) es).
    apply IH, reachable_step, Hst.
Qed.

(** A panel write to a glass parameter lands in the one glass material, and
    the visibility flags of the shapes play no part in it. *)
Lemma panel_glass_write (st : State) (p : GlassParam) (v : number) :
  glassMaterial (step st (Gui (SetGlass p v)))
  = set_glassParam p v (glassMaterial st).
Proof. reflexivity. Qed.

Lemma glassParam_set_glassParam (p : GlassParam) (v : number)
    (m : MeshPhysicalMaterial) :
  glassParam p (set_glassParam p v m) = v.
Proof. destruct p; reflexivity. Qed.

(** C8.  At any point of any run, the single pyramid and the two halves of
    the bi-pyramid all refer to the one glass material.  So after a panel
    write of [v] to a glass parameter, each of the three is drawn with the
    same material, in which that parameter is [v]; and the material written
    is the same whichever of the shape groups was visible. *)
Theorem solids_share_one_glass_material :
  forall (w h : number) (es : list Event) (p : GlassParam) (v : number),
    let st := run (init w h) es in
    let st' := step st (Gui (SetGlass p v)) in
    (material (singlePyramid st') = glassMaterialRef
     /\ material (upperPyramid st') = glassMaterialRef
     /\ material (lowerPyramid st') = glassMaterialRef)
    /\ renderedMaterial st' (singlePyramid st') = Physical (glassMaterial st')
    /\ renderedMaterial st' (upperPyramid st') = Physical (glassMaterial st')
    /\ renderedMaterial st' (lowerPyramid st') = Physical (glassMaterial st')
    /\ glassParam p (glassMaterial st') = v
    /\ (forall a b : bool,
          glassMaterial (step (withShapeVisibility a b st) (Gui (SetGlass p v)))
          = glassMaterial st').
Proof.
  intros w h es p v st st'.
  assert (Hshare : solidsShareGlass st').
  { apply reachable_solidsShareGlass, reachable_step, run_reachable,
      reachable_init. }
  destruct Hshare as (Hs & Hu & Hl).
  split; [ repeat split; assumption | ].
  unfold renderedMaterial. rewrite Hs, Hu, Hl.
  split; [ reflexivity | ].
  split; [ reflexivity | ].
  split; [ reflexivity | ].
  split.
  - unfold st'. rewrite panel_glass_write. apply glassParam_set_glassParam.
  - intros a b. unfold st'. rewrite !panel_glass_write. reflexivity.
Qed.

(** Dispersion 7.5, written once with the single pyramid showing and once
    with the bi-pyramid showing. *)
Example dispersion_written_under_either_shape :
  let single :=
    run (init 1280 720)
      [Gui (SetShape "Single Pyramid"); Gui (SetGlass Dispersion 7.5)] in
  let double :=
    run (init 1280 720)
      [Gui (SetShape "Bi-Pyramid"); Gui (SetGlass Dispersion 7.5)] in
  visible (singlePyramidGroup single) = true
  /\ visible (biPyramidGroup double) = true
  /\ renderedMaterial single (singlePyramid single)
     = renderedMaterial double (upperPyramid double)
  /\ renderedMaterial double (upperPyramid double)
     = renderedMaterial double (lowerPyramid double)
  /\ glassMaterial single
     = mkMeshPhysicalMaterial 1.0 0.0 5.0 2.0 7.5 0.0 1.0 0.0 1.0 DoubleSide.
Proof.
  cbv zeta.
  split; [ | split; [ | split; [ | split ] ] ]; vm_compute; reflexivity.
Qed.

(** ** The scene follows the settings record *)

Lemma step_preserves_sceneMirrorsSettings (st : State) (e : Event) :
  sceneMirrorsSettings st -> sceneMirrorsSettings (step st e).
Proof.
  unfold sceneMirrorsSettings.
  intros (H1 & H2 & H3 & H4 & H5 & H6 & H7 & H8).
  event_cases st e; vm_compute;
    (split; [ | split; [ | split; [ | split; [ | split; [ | split;
       [ | split ] ] ] ] ] ]);
    first [ assumption | reflexivity ].
Qed.

Lemma init_sceneMirrorsSettings (w h : number) :
  sceneMirrorsSettings (init w h).
Proof.
  unfold sceneMirrorsSettings, init.
  rewrite updateAllDisplays_frame.
  split; [ | split; [ | split; [ | split; [ | split; [ | split;
    [ | split ] ] ] ] ] ]; reflexivity.
Qed.

(** X1.  Throughout any run, the scene holds what the [settings] record
    holds for every bound control that has a callback: the gap variable, the
    beam's visibility and opacity uniform, the spotlight intensity, the fog
    density, the dust cloud's visibility, and the two shape groups'
    visibility as decided by [settings.shape]. *)
Theorem scene_mirrors_settings_throughout :
  forall st : State, reachable st -> sceneMirrorsSettings st.
Proof.
  induction 1 as [w h | st e _ IH].
  - apply init_sceneMirrorsSettings.
  - apply step_preserves_sceneMirrorsSettings, IH.
Qed.

Lemma scene_mirrors_settings_throughout_witness :
  sceneMirrorsSettings
    (step (step (init 1280 720) (Gui (SetFogDensity 0.05)))
       (Gui (SetShape "Single Pyramid"))).
Proof.
  apply (scene_mirrors_settings_throughout
           (step (step (init 1280 720) (Gui (SetFogDensity 0.05)))
              (Gui (SetShape "Single Pyramid")))).
  apply reachable_step, reachable_step, reachable_init.
Defined.

(** ** The bi-pyramid stays assembled *)

Lemma step_preserves_biPyramidPlaced (st : State) (e : Event) :
  biPyramidPlaced st -> biPyramidPlaced (step st e).
Proof.
  unfold biPyramidPlaced, upperOffset, lowerOffset.
  intros (H1 & H2 & H3 & H4).
  event_cases st e; vm_compute;
    (split; [ | split; [ | split ] ]);
    first [ assumption | reflexivity ].
Qed.

Lemma init_biPyramidPlaced (w h : number) : biPyramidPlaced (init w h).
Proof.
  unfold biPyramidPlaced, upperOffset, lowerOffset, init.
  rewrite updateAllDisplays_frame.
  split; [ | split; [ | split ] ]; reflexivity.
Qed.

(** X2.  Throughout any run the upper half of the bi-pyramid sits at
    [height/2 + gap/2] for the current gap, the lower half at the negation
    of that, the lower half stays flipped by [Math.PI] about X and the upper
    half unflipped: no handler moves one half without the other. *)
Theorem bipyramid_stays_assembled :
  forall st : State, reachable st -> biPyramidPlaced st.
Proof.
  induction 1 as [w h | st e _ IH].
  - apply init_biPyramidPlaced.
  - apply step_preserves_biPyramidPlaced, IH.
Qed.

Lemma bipyramid_stays_assembled_witness :
  biPyramidPlaced
    (run (init 1280 720)
       [Gui (SetBiPyramidGap 0.6); MouseDown 5 5; MouseMove 50 9;
        AnimationFrame]).
Proof.
  apply (bipyramid_stays_assembled
           (run (init 1280 720)
              [Gui (SetBiPyramidGap 0.6); MouseDown 5 5; MouseMove 50 9;
               AnimationFrame])).
  apply run_reachable, reachable_init.
Defined.

(** ** Which controls can lag behind *)

Lemma setValue_keeps_upToDate (st : State) (i : GuiInput) (c : Controller) :
  upToDate st c -> upToDate (setValue i st) c.
Proof.
  unfold upToDate. intros Hup.
  destruct i as [ v | v | v | v | v | v | v | q v | v | v | v | v | v ];
    try destruct q;
    destruct c as [ | | | | | | | p | | | | | ];
    try destruct p;
    vm_compute; first [ reflexivity | exact Hup ].
Qed.


Lemma animate_keeps_upToDate (st : State) (c : Controller) :
  c <> prismRotateYCtl -> upToDate st c -> upToDate (animate st) c.
Proof.
  unfold upToDate. intros Hc Hup.
  rewrite animate_never_redraws.
  destruct c as [ | | | | | | | p | | | | | ];
    try (exfalso; apply Hc; reflexivity);
    try destruct p;
    unfold animate;
    destruct (Settings.autoRotate (settings st) && negb (isDragging st));
    vm_compute; exact Hup.
Qed.

Lemma step_keeps_upToDate (st : State) (e : Event) (c : Controller) :
  c <> prismRotateYCtl -> upToDate st c -> upToDate (step st e) c.
Proof.
  intros Hc Hup.
  destruct e as [ i | a b | a b | | | w h | ].
  - apply setValue_keeps_upToDate, Hup.
  - unfold upToDate in *.
    destruct c as [ | | | | | | | p | | | | | ]; try destruct p; exact Hup.
  - destruct (isDragging st) eqn:Hdrag.
    + apply mousemove_redraws_every_controller, Hdrag.
    + rewrite (mousemove_idle st a b Hdrag). exact Hup.
  - unfold upToDate in *.
    destruct c as [ | | | | | | | p | | | | | ]; try destruct p; exact Hup.
  - unfold upToDate in *.
    destruct c as [ | | | | | | | p | | | | | ]; try destruct p; exact Hup.
  - unfold upToDate in *.
    destruct c as [ | | | | | | | p | | | | | ]; try destruct p; exact Hup.
  - apply animate_keeps_upToDate; assumption.
Qed.

Lemma reachable_upToDate (st : State) (c : Controller) :
  reachable st -> c <> prismRotateYCtl -> upToDate st c.
Proof.
  intros Hreach Hc.
  induction Hreach as [w h | st e _ IH].
  - apply updateAllDisplays_upToDate.
  - apply step_keeps_upToDate; assumption.
Qed.

(** X3.  Throughout any run every control other than Rotate Y shows the
    value its property holds; in particular the Rotate X and Rotate Z
    controls show the prism group's actual X and Z angles.  Only Rotate Y,
    which [animate] writes without a redraw, can lag. *)
Theorem only_rotate_y_display_can_lag :
  forall (st : State) (c : Controller),
    reachable st ->
    c <> prismRotateYCtl ->
    upToDate st c
    /\ gui st prismRotateXCtl = VNumber (rotationX st)
    /\ gui st prismRotateZCtl = VNumber (rotationZ st).
Proof.
  intros st c Hreach Hc.
  destruct (reachable_orientationSynced st Hreach) as (Hx & _ & Hz).
  split; [ apply reachable_upToDate; assumption | ].
  unfold rotationX, rotationZ. rewrite <- Hx, <- Hz.
  split; apply reachable_upToDate; try assumption; discriminate.
Qed.

Lemma only_rotate_y_display_can_lag_witness :
  let st :=
    run (init 1280 720)
      [AnimationFrame; Gui (SetAutoRotateSpeed 1.5); AnimationFrame] in
  upToDate st autoRotateSpeedCtl
  /\ gui st prismRotateXCtl = VNumber (rotationX st)
  /\ gui st prismRotateZCtl = VNumber (rotationZ st).
Proof.
  apply (only_rotate_y_display_can_lag
           (run (init 1280 720)
              [AnimationFrame; Gui (SetAutoRotateSpeed 1.5); AnimationFrame])
           autoRotateSpeedCtl).
  - apply run_reachable, reachable_init.
  - discriminate.
Defined.

(** X4.  A pointer move during a drag leaves the whole panel current: every
    control shows what its property holds, and Rotate X and Rotate Y show
    the prism group's new angles, whatever was shown before. *)
Theorem drag_move_brings_panel_up_to_date :
  forall (st : State) (x y : number),
    isDragging st = true ->
    (forall c : Controller, upToDate (step st (MouseMove x y)) c)
    /\ gui (step st (MouseMove x y)) prismRotateXCtl
       = VNumber (rotationX (step st (MouseMove x y)))
    /\ gui (step st (MouseMove x y)) prismRotateYCtl
       = VNumber (rotationY (step st (MouseMove x y))).
Proof.
  intros st x y Hdrag.
  destruct (mousemove_writes_back st x y Hdrag) as (Hy & Hx).
  split; [ intros c; apply mousemove_redraws_every_controller, Hdrag | ].
  rewrite <- Hx, <- Hy.
  split.
  - exact (mousemove_redraws_every_controller st x y prismRotateXCtl Hdrag).
  - exact (mousemove_redraws_every_controller st x y prismRotateYCtl Hdrag).
Qed.

Lemma drag_move_brings_panel_up_to_date_witness :
  let st := run (init 1280 720) [AnimationFrame; MouseDown 100 100] in
  (forall c : Controller, upToDate (step st (MouseMove 110 115)) c)
  /\ gui (step st (MouseMove 110 115)) prismRotateXCtl
     = VNumber (rotationX (step st (MouseMove 110 115)))
  /\ gui (step st (MouseMove 110 115)) prismRotateYCtl
     = VNumber (rotationY (step st (MouseMove 110 115))).
Proof.
  apply (drag_move_brings_panel_up_to_date
           (run (init 1280 720) [AnimationFrame; MouseDown 100 100])
           110 115).
  reflexivity.
Defined.

(** ** The dust cloud and idle ticks *)

Lemma animate_particles (st : State) :
  particles (animate st)
  = set_node
      (set_rotation_y (dustRotationY st + 0.0001) (node (particles st)))
      (particles st).
Proof.
  unfold animate, dustRotationY.
  destruct (Settings.autoRotate (settings st) && negb (isDragging st));
    reflexivity.
Qed.

(** X5.  Every tick turns the dust cloud by 0.0001 about the vertical axis,
    whether or not auto-rotate is on, a drag is in progress or the dust is
    shown; over [n] ticks that is [n] rounded additions.  Ticks never change
    whether the dust is shown. *)
Theorem ticks_turn_the_dust :
  forall (st : State) (n : nat),
    dustRotationY (run st (repeat AnimationFrame n))
    = Nat.iter n (fun a => a + 0.0001) (dustRotationY st)
    /\ visible (node (particles (run st (repeat AnimationFrame n))))
       = visible (node (particles st)).
Proof.
  intros st n. revert st.
  induction n as [ | n IH]; intros st.
  - split; reflexivity.
  - rewrite run_ticks_succ.
    destruct (IH (animate st)) as (Hrot & Hvis).
    rewrite Hrot, Hvis, Nat.iter_succ_r.
    unfold dustRotationY at 1. rewrite animate_particles.
    split; reflexivity.
Qed.

Lemma set_particles_twice (p q : Mesh) (st : State) :
  set_particles p (set_particles q st) = set_particles p st.
Proof. reflexivity. Qed.

Lemma set_particles_same (st : State) : set_particles (particles st) st = st.
Proof. destruct st; reflexivity. Qed.

Lemma animate_idle (st : State) :
  Settings.autoRotate (settings st) && negb (isDragging st) = false ->
  animate st = set_particles (particles (animate st)) st.
Proof.
  intros Hoff. unfold animate. rewrite Hoff. reflexivity.
Qed.

(** X6.  With auto-rotate off, or while a drag is in progress, any number
    of ticks changes nothing in the program state but the dust cloud:
    putting the dust back gives the state before the ticks. *)
Theorem idle_ticks_change_only_the_dust :
  forall (st : State) (n : nat),
    Settings.autoRotate (settings st) && negb (isDragging st) = false ->
    set_particles (particles st) (run st (repeat AnimationFrame n)) = st.
Proof.
  intros st n. revert st.
  induction n as [ | n IH]; intros st Hoff.
  - apply set_particles_same.
  - rewrite run_ticks_succ.
    assert (Hoff' :
      Settings.autoRotate (settings (animate st))
      && negb (isDragging (animate st)) = false).
    { destruct (animate_controls st) as (-> & _ & ->). exact Hoff. }
    specialize (IH (animate st) Hoff').
    rewrite <- (set_particles_twice (particles st) (particles (animate st))).
    rewrite IH, (animate_idle st Hoff), set_particles_twice.
    apply set_particles_same.
Qed.

Lemma idle_ticks_change_only_the_dust_witness :
  let st := step (init 1280 720) (MouseDown 40 40) in
  set_particles (particles st) (run st (repeat AnimationFrame 3)) = st.
Proof.
  apply (idle_ticks_change_only_the_dust
           (step (init 1280 720) (MouseDown 40 40)) 3).
  reflexivity.
Defined.

(** ** The drag flag *)

Lemma step_isDragging (st : State) (e : Event) :
  isDragging (step st e) = dragAfter (isDragging st) e.
Proof.
  destruct e as [ i | a b | a b | | | w h | ].
  - destruct i; reflexivity.
  - reflexivity.
  - destruct (isDragging st) eqn:Hdrag.
    + destruct (onMouseMove_dragging st a b Hdrag) as (_ & _ & Hd).
      exact Hd.
    + rewrite (mousemove_idle st a b Hdrag). exact Hdrag.
  - reflexivity.
  - reflexivity.
  - reflexivity.
  - destruct (animate_controls st) as (_ & _ & Hd). exact Hd.
Qed.

(** X7.  After any sequence of events the drag flag is what the pointer
    buttons alone determine: raised by the last pointer-down unless a
    pointer-up or pointer-leave came after it; panel changes, pointer moves,
    resizes and ticks never alter it. *)
Theorem drag_flag_follows_pointer_buttons :
  forall (es : list Event) (st : State),
    isDragging (run st es) = fold_left dragAfter es (isDragging st).
Proof.
  induction es as [ | e es IH]; intros st.
  - reflexivity.
  - change (run st (e :: es)) with (run (step st e) es).
    rewrite IH, step_isDragging. reflexivity.
Qed.

(** ** One shape at a time *)

Lemma step_preserves_exactlyOneShapeVisible (st : State) (e : Event) :
  shapeFromOptions e = true ->
  exactlyOneShapeVisible st ->
  exactlyOneShapeVisible (step st e).
Proof.
  unfold exactlyOneShapeVisible. intros Hopt Hone.
  destruct e as [ i | a b | a b | | | w h | ].
  - destruct i as [ s | v | v | v | v | v | v | q v | v | v | v | v | v ];
      try exact Hone.
    simpl in Hopt. rewrite orb_false_r in Hopt.
    apply orb_true_iff in Hopt as [Hs | Hs];
      apply String.eqb_eq in Hs; subst s; reflexivity.
  - exact Hone.
  - destruct (isDragging st) eqn:Hdrag.
    + unfold step, onMouseMove. rewrite Hdrag. vm_compute. exact Hone.
    + rewrite (mousemove_idle st a b Hdrag). exact Hone.
  - exact Hone.
  - exact Hone.
  - exact Hone.
  - unfold step, animate.
    destruct (Settings.autoRotate (settings st) && negb (isDragging st));
      exact Hone.
Qed.

(** X8.  As long as every shape selection is one of the two options of the
    drop-down, exactly one of the two shape groups is visible after every
    event of a run that starts with exactly one visible, as the loaded page
    does. *)
Theorem one_shape_visible_throughout :
  forall (es : list Event) (st : State),
    exactlyOneShapeVisible st ->
    forallb shapeFromOptions es = true ->
    exactlyOneShapeVisible (run st es).
Proof.
  induction es as [ | e es IH]; intros st Hone Hopts.
  - exact Hone.
  - simpl in Hopts. apply andb_true_iff in Hopts as [He Hes].
    change (run st (e :: es)) with (run (step st e) es).
    apply IH; [ | exact Hes ].
    apply step_preserves_exactlyOneShapeVisible; assumption.
Qed.

Lemma one_shape_visible_throughout_witness :
  exactlyOneShapeVisible
    (run (init 1280 720)
       [Gui (SetShape "Single Pyramid"); AnimationFrame; MouseDown 3 4;
        MouseMove 30 40; Gui (SetShape "Bi-Pyramid");
        Gui (SetShape "Single Pyramid")]).
Proof.
  apply (one_shape_visible_throughout
           [Gui (SetShape "Single Pyramid"); AnimationFrame; MouseDown 3 4;
            MouseMove 30 40; Gui (SetShape "Bi-Pyramid");
            Gui (SetShape "Single Pyramid")]
           (init 1280 720)).
  - reflexivity.
  - reflexivity.
Defined.

(** ** The glass material between panel writes *)

Lemma step_preserves_glassFixedFields (st : State) (e : Event) :
  glassFixedFields (glassMaterial st) ->
  glassFixedFields (glassMaterial (step st e)).
Proof.
  unfold glassFixedFields.
  intros (H1 & H2 & H3 & H4 & H5).
  event_cases st e; vm_compute;
    (split; [ | split; [ | split; [ | split ] ] ]); assumption.
Qed.

(** X9.  Throughout any run the glass material keeps the values it was
    built with in the fields no control is bound to: metalness 0, clearcoat
    1, clearcoat roughness 0, environment-map intensity 1, double-sided. *)
Theorem glass_fixed_fields_throughout :
  forall st : State, reachable st -> glassFixedFields (glassMaterial st).
Proof.
  induction 1 as [w h | st e _ IH].
  - unfold init. rewrite updateAllDisplays_frame.
    unfold glassFixedFields.
    split; [ | split; [ | split; [ | split ] ] ]; reflexivity.
  - apply step_preserves_glassFixedFields, IH.
Qed.

Lemma glass_fixed_fields_throughout_witness :
  glassFixedFields
    (glassMaterial
       (run (init 1280 720)
          [Gui (SetGlass Ior 1.4); Gui (SetGlass Roughness 0.3);
           AnimationFrame])).
Proof.
  apply (glass_fixed_fields_throughout
           (run (init 1280 720)
              [Gui (SetGlass Ior 1.4); Gui (SetGlass Roughness 0.3);
               AnimationFrame])).
  apply run_reachable, reachable_init.
Defined.

(** X10.  A glass parameter changes only through its own control: any other
    event, the panel writes to the four other glass parameters included,
    leaves it as it is. *)
Theorem glass_parameter_changes_only_by_its_control :
  forall (st : State) (e : Event) (q : GlassParam),
    writesGlassParam q e = false ->
    glassParam q (glassMaterial (step st e)) = glassParam q (glassMaterial st).
Proof.
  intros st e q Hother.
  destruct e as [ i | a b | a b | | | w h | ].
  - destruct i as [ s | v | v | v | v | v | v | p v | v | v | v | v | v ];
      try reflexivity.
    simpl in Hother. rewrite panel_glass_write.
    destruct p, q; try discriminate Hother; reflexivity.
  - reflexivity.
  - destruct (isDragging st) eqn:Hdrag.
    + unfold step, onMouseMove. rewrite Hdrag.
      destruct q; vm_compute; reflexivity.
    + rewrite (mousemove_idle st a b Hdrag). reflexivity.
  - reflexivity.
  - reflexivity.
  - reflexivity.
  - unfold step, animate.
    destruct (Settings.autoRotate (settings st) && negb (isDragging st));
      reflexivity.
Qed.

Lemma glass_parameter_changes_only_by_its_control_witness :
  glassParam Dispersion
    (glassMaterial (step (init 1280 720) (Gui (SetGlass Ior 1.4))))
  = glassParam Dispersion (glassMaterial (init 1280 720)).
Proof.
  apply (glass_parameter_changes_only_by_its_control
           (init 1280 720) (Gui (SetGlass Ior 1.4)) Dispersion).
  reflexivity.
Defined.

(** ** Camera and drawing surface *)

Lemma step_preserves_aspectMatchesSize (st : State) (e : Event) :
  aspectMatchesSize st -> aspectMatchesSize (step st e).
Proof.
  unfold aspectMatchesSize. intros Hasp.
  event_cases st e; vm_compute; first [ exact Hasp | reflexivity ].
Qed.

(** X11.  Throughout any run the camera's aspect ratio is the width of the
    drawing surface divided by its height, as last set at load or by a
    resize; no other handler touches either. *)
Theorem aspect_matches_surface_throughout :
  forall st : State, reachable st -> aspectMatchesSize st.
Proof.
  induction 1 as [w h | st e _ IH].
  - unfold aspectMatchesSize, init. rewrite updateAllDisplays_frame.
    reflexivity.
  - apply step_preserves_aspectMatchesSize, IH.
Qed.

Lemma aspect_matches_surface_throughout_witness :
  aspectMatchesSize
    (run (init 1280 720) [AnimationFrame; Resize 800 600; MouseDown 1 1]).
Proof.
  apply (aspect_matches_surface_throughout
           (run (init 1280 720)
              [AnimationFrame; Resize 800 600; MouseDown 1 1])).
  apply run_reachable, reachable_init.
Defined.

(** ** Auto-rotation around a drag *)

(** X12.  With auto-rotate on, a tick that falls between pointer-down and
    release does not turn the prism, and the first tick after the release
    (pointer-up or pointer-leave) turns it by one increment again: the drag
    suspends auto-rotation and nothing is owed afterwards. *)
Theorem auto_rotate_resumes_after_release :
  forall (st : State) (a b : number) (release : Event),
    Settings.autoRotate (settings st) = true ->
    release = MouseUp \/ release = MouseLeave ->
    rotationY (run st [MouseDown a b; AnimationFrame]) = rotationY st
    /\ rotationY (run st [MouseDown a b; AnimationFrame; release;
                          AnimationFrame])
       = rotationY st + Settings.autoRotateSpeed (settings st) * 0.01.
Proof.
  intros st a b release Hauto Hrel.
  destruct st as [gm bm pm pg sg bg sp up lp gap li ib fd pa ca rs se gu dr mp].
  destruct se as [sh rx ry rz ar sp' g' sb bo lt fg pv].
  simpl in Hauto. subst ar.
  destruct Hrel as [-> | ->]; split; vm_compute; reflexivity.
Qed.

Lemma auto_rotate_resumes_after_release_witness :
  rotationY (run (init 1280 720) [MouseDown 7 9; AnimationFrame])
  = rotationY (init 1280 720)
  /\ rotationY (run (init 1280 720)
                  [MouseDown 7 9; AnimationFrame; MouseLeave; AnimationFrame])
     = rotationY (init 1280 720)
       + Settings.autoRotateSpeed (settings (init 1280 720)) * 0.01.
Proof.
  apply (auto_rotate_resumes_after_release (init 1280 720) 7 9 MouseLeave).
  - reflexivity.
  - right. reflexivity.
Defined.

(** ** Hovering *)

Lemma init_idle (w h : number) : isDragging (init w h) = false.
Proof. unfold init. rewrite updateAllDisplays_frame. reflexivity. Qed.

(** X13.  From page load until the first pointer-down, whatever else
    happens, a pointer move over the canvas changes nothing. *)
Theorem hovering_before_first_press_is_ignored :
  forall (w h : number) (es : list Event) (x y : number),
    existsb isMouseDown es = false ->
    step (run (init w h) es) (MouseMove x y) = run (init w h) es.
Proof.
  intros w h es x y Hnone.
  apply mousemove_idle.
  apply run_keeps_idle; [ apply init_idle | exact Hnone ].
Qed.

Lemma hovering_before_first_press_is_ignored_witness :
  step (run (init 1280 720)
          [AnimationFrame; MouseMove 5 5; Gui (SetAutoRotate false)])
       (MouseMove 200 300)
  = run (init 1280 720)
      [AnimationFrame; MouseMove 5 5; Gui (SetAutoRotate false)].
Proof.
  apply (hovering_before_first_press_is_ignored 1280 720
           [AnimationFrame; MouseMove 5 5; Gui (SetAutoRotate false)]
           200 300).
  reflexivity.
Defined.

(** ** Touching the Rotate Y control *)



(** ** The auto-rotate controls *)

Lemma ticks_without_auto_rotation (st : State) (n : nat) :
  Settings.autoRotate (settings st) && negb (isDragging st) = false ->
  rotation (prismGroup (run st (repeat AnimationFrame n)))
  = rotation (prismGroup st).
Proof.
  revert st. induction n as [ | n IH]; intros st Hoff.
  - reflexivity.
  - rewrite run_ticks_succ, IH.
    + rewrite animate_rotation, Hoff. reflexivity.
    + destruct (animate_controls st) as (-> & _ & ->). exact Hoff.
Qed.

(** X15.  The auto-rotate controls act from the very next tick: after the
    speed control is set to [v], with auto-rotate on and no drag, the next
    tick turns the prism by [v * 0.01]; after auto-rotate is switched off,
    no number of ticks turns it. *)
Theorem auto_rotate_controls_act_on_next_tick :
  forall (st : State) (v : number) (n : nat),
    Settings.autoRotate (settings st) = true ->
    isDragging st = false ->
    rotationY (run st [Gui (SetAutoRotateSpeed v); AnimationFrame])
    = rotationY st + v * 0.01
    /\ rotation (prismGroup
                   (run st (Gui (SetAutoRotate false)
                            :: repeat AnimationFrame n)))
       = rotation (prismGroup st).
Proof.
  intros st v n Hauto Hidle. split.
  - destruct st
      as [gm bm pm pg sg bg sp up lp gap li ib fd pa ca rs se gu dr mp].
    destruct se as [sh rx ry rz ar sp' g' sb bo lt fg pv].
    simpl in Hauto, Hidle. subst ar dr.
    vm_compute. reflexivity.
  - change (run st (Gui (SetAutoRotate false) :: repeat AnimationFrame n))
      with (run (setValue (SetAutoRotate false) st)
              (repeat AnimationFrame n)).
    rewrite ticks_without_auto_rotation; reflexivity.
Qed.

Lemma auto_rotate_controls_act_on_next_tick_witness :
  rotationY (run (init 1280 720)
               [Gui (SetAutoRotateSpeed 2); AnimationFrame])
  = rotationY (init 1280 720) + 2 * 0.01
  /\ rotation (prismGroup
                 (run (init 1280 720)
                    (Gui (SetAutoRotate false) :: repeat AnimationFrame 5)))
     = rotation (prismGroup (init 1280 720)).
Proof.
  apply (auto_rotate_controls_act_on_next_tick (init 1280 720) 2 5);
    reflexivity.
Defined.

(** ** Composing the two scene operations *)

(** X16.  [updateBiPyramidGap] and [setActiveShape] overwrite and do not
    accumulate: of two calls of the same function only the later one shows,
    and a call of one commutes with a call of the other. *)
Theorem scene_operations_compose :
  forall (st : State) (g1 g2 : number) (s1 s2 : string),
    updateBiPyramidGap g2 (updateBiPyramidGap g1 st)
    = updateBiPyramidGap g2 st
    /\ setActiveShape s2 (setActiveShape s1 st) = setActiveShape s2 st
    /\ setActiveShape s1 (updateBiPyramidGap g1 st)
       = updateBiPyramidGap g1 (setActiveShape s1 st).
Proof.
  intros st g1 g2 s1 s2.
  split; [ | split ]; vm_compute; reflexivity.
Qed.

(** ** Materials of the beam and the dust *)

Lemma step_preserves_decorationsKeepOwnMaterials (st : State) (e : Event) :
  decorationsKeepOwnMaterials st -> decorationsKeepOwnMaterials (step st e).
Proof.
  unfold decorationsKeepOwnMaterials.
  intros (Hb & Hp).
  event_cases st e; vm_compute; split; assumption.
Qed.

Lemma reachable_decorationsKeepOwnMaterials (st : State) :
  reachable st -> decorationsKeepOwnMaterials st.
Proof.
  induction 1 as [w h | st e _ IH].
  - unfold decorationsKeepOwnMaterials, init.
    rewrite updateAllDisplays_frame. split; reflexivity.
  - apply step_preserves_decorationsKeepOwnMaterials, IH.
Qed.

(** X17.  The glass, the beam and the dust have separate materials
    throughout any run: a panel write to a glass parameter leaves the
    materials the beam and the dust are drawn with as they were, and a change
    of the beam opacity leaves the material of the three solids as it was. *)
Theorem glass_and_decorations_have_separate_materials :
  forall (st : State) (p : GlassParam) (v o : number),
    reachable st ->
    (renderedMaterial (step st (Gui (SetGlass p v)))
       (inputBeam (step st (Gui (SetGlass p v))))
     = renderedMaterial st (inputBeam st)
     /\ renderedMaterial (step st (Gui (SetGlass p v)))
          (particles (step st (Gui (SetGlass p v))))
        = renderedMaterial st (particles st))
    /\ (renderedMaterial (step st (Gui (SetInputBeamOpacity o)))
          (singlePyramid (step st (Gui (SetInputBeamOpacity o))))
        = renderedMaterial st (singlePyramid st)
        /\ renderedMaterial (step st (Gui (SetInputBeamOpacity o)))
             (upperPyramid (step st (Gui (SetInputBeamOpacity o))))
           = renderedMaterial st (upperPyramid st)
        /\ renderedMaterial (step st (Gui (SetInputBeamOpacity o)))
             (lowerPyramid (step st (Gui (SetInputBeamOpacity o))))
           = renderedMaterial st (lowerPyramid st)).
Proof.
  intros st p v o Hreach.
  destruct (reachable_decorationsKeepOwnMaterials st Hreach) as (Hb & Hp).
  destruct (reachable_solidsShareGlass st Hreach) as (Hs & Hu & Hl).
  destruct (reachable_decorationsKeepOwnMaterials _
              (reachable_step st (Gui (SetGlass p v)) Hreach)) as (Hb' & Hp').
  destruct (reachable_solidsShareGlass _
              (reachable_step st (Gui (SetInputBeamOpacity o)) Hreach))
    as (Hs' & Hu' & Hl').
  unfold renderedMaterial.
  rewrite Hb, Hp, Hs, Hu, Hl, Hb', Hp', Hs', Hu', Hl'.
  split; split; [ | | | split ]; reflexivity.
Qed.

Lemma glass_and_decorations_have_separate_materials_witness :
  let st := init 1280 720 in
  (renderedMaterial (step st (Gui (SetGlass Ior 1.2)))
     (inputBeam (step st (Gui (SetGlass Ior 1.2))))
   = renderedMaterial st (inputBeam st)
   /\ renderedMaterial (step st (Gui (SetGlass Ior 1.2)))
        (particles (step st (Gui (SetGlass Ior 1.2))))
      = renderedMaterial st (particles st))
  /\ (renderedMaterial (step st (Gui (SetInputBeamOpacity 0.4)))
        (singlePyramid (step st (Gui (SetInputBeamOpacity 0.4))))
      = renderedMaterial st (singlePyramid st)
      /\ renderedMaterial (step st (Gui (SetInputBeamOpacity 0.4)))
           (upperPyramid (step st (Gui (SetInputBeamOpacity 0.4))))
         = renderedMaterial st (upperPyramid st)
      /\ renderedMaterial (step st (Gui (SetInputBeamOpacity 0.4)))
           (lowerPyramid (step st (Gui (SetInputBeamOpacity 0.4))))
         = renderedMaterial st (lowerPyramid st)).
Proof.
  apply (glass_and_decorations_have_separate_materials
           (init 1280 720) Ior 1.2 0.4).
  apply reachable_init.
Defined.
